(** * Log_Reg_Classifier: corpus loading and cross-validated evaluation

    A shallow embedding of [Data_Collector/Log_Reg_Classifier.py].

    The script is Python 2: a [str] is a byte string, modelled by [string]
    (a list of 8-bit [ascii]).  Python exceptions are values of [exn]; a
    computation returns the list of the effects it performed together with
    either its value or the exception that stopped it.  A floating point
    score is carried as the rational it denotes; the script does no
    arithmetic on scores of its own, it hands them to [numpy.mean], whose
    float64 rounding is numpy's.  Calls into scikit-learn, numpy and
    Python's [random] module go through interfaces, since their code is not
    part of the script. *)

From Stdlib Require Import Ascii String QArith Qabs Qround.
From Stdlib Require Floats.
From stdpp Require Import gmap strings list fin_maps pretty.

Local Open Scope string_scope.
Local Open Scope list_scope.

(** ** Python byte strings *)

Module PyStr.

(** [str.isspace] of one byte in the C locale: space, and tab to carriage
    return. *)
Definition isspace (c : ascii) : bool :=
  let n := nat_of_ascii c in
  (n =? 32)%nat || ((9 <=? n)%nat && (n <=? 13)%nat).

Fixpoint lstrip (s : string) : string :=
  match s with
  | String c s' => if isspace c then lstrip s' else s
  | EmptyString => EmptyString
  end.

Definition rstrip (s : string) : string :=
  String.rev (lstrip (String.rev s)).

(** [s.strip()] *)
Definition strip (s : string) : string := rstrip (lstrip s).

(** Truth value of a [str]: non-empty. *)
Definition truthy (s : string) : bool :=
  match s with EmptyString => false | String _ _ => true end.

Definition newline : ascii := ascii_of_nat 10.
Definition backslash : ascii := ascii_of_nat 92.
Definition slash : ascii := ascii_of_nat 47.

(** Iterating over a file opened with mode ['r'] yields its lines, each
    one with its terminating newline (the last line may lack it). *)
Fixpoint readlines (s : string) : list string :=
  match s with
  | EmptyString => []
  | String c s' =>
      if decide (c = newline) then String c EmptyString :: readlines s'
      else match readlines s' with
           | [] => [String c EmptyString]
           | l :: ls => String c l :: ls
           end
  end.

Fixpoint contains (c : ascii) (s : string) : bool :=
  match s with
  | EmptyString => false
  | String d s' => bool_decide (c = d) || contains c s'
  end.

Definition startswith_slash (s : string) : bool :=
  match s with
  | String c _ => bool_decide (c = slash)
  | EmptyString => false
  end.

Fixpoint endswith_slash (s : string) : bool :=
  match s with
  | EmptyString => false
  | String c EmptyString => bool_decide (c = slash)
  | String _ s' => endswith_slash s'
  end.

(** [sep.join(l)] *)
Definition join (sep : string) (l : list string) : string :=
  String.concat sep l.

(** A byte string without backslash decodes under ['unicode-escape'] to
    the code points of its bytes (Latin-1); encoding those as UTF-8 keeps
    a byte below 128 and turns any other byte into two. *)
Fixpoint latin1_to_utf8 (s : string) : string :=
  match s with
  | EmptyString => EmptyString
  | String c s' =>
      let n := nat_of_ascii c in
      if (n <? 128)%nat then String c (latin1_to_utf8 s')
      else String (ascii_of_nat (192 + n / 64))
             (String (ascii_of_nat (128 + n mod 64)) (latin1_to_utf8 s'))
  end.

End PyStr.

(** [os.path.join(a, b)] of [posixpath]. *)
Definition os_path_join (a b : string) : string :=
  if PyStr.startswith_slash b then b
  else if bool_decide (a = "") || PyStr.endswith_slash a then a +:+ b
  else a +:+ "/" +:+ b.

(** ** Values, exceptions and effects *)

(** The script's tunables. *)
Definition DEP : string := "./mixed_depression".
Definition NON_DEP : string := "./mixed_non_depression".
Definition ANALYZER : string := "word".
Definition NGRAM_MAX : nat := 3.
Definition PENALTY : string := "l1".
Definition KFOLD_SPLITS : nat := 10.
Definition EVAL_AVERAGE : string := "binary".

(** A scipy sparse matrix, by its column count and its rows. *)
Record matrix : Type := Matrix { n_cols : nat; rows : list (list Q) }.

Definition shape (m : matrix) : nat * nat := (length (rows m), n_cols m).

(** Keyword arguments of [CountVectorizer] and [TfidfVectorizer]. *)
Record vec_config : Type :=
  VecConfig { ngram_range : nat * nat; analyzer : string; encoding : string }.

(** Keyword arguments of [LogisticRegression]. *)
Record lr_config : Type :=
  LrConfig { penalty : string; class_weight : option string }.

Inductive exn : Type :=
  | OSError (path : string)
  | IOError (path : string)
  | UnicodeDecodeError (line : string)
  | IndexError
  | ValueError (msg : string).

Inductive result (A : Type) : Type :=
  | Ok (a : A)
  | Raise (e : exn).
Arguments Ok {A} a.
Arguments Raise {A} e.

(** What a [print] statement is given. *)
Inductive value : Type :=
  | VStr (s : string)
  | VInt (n : nat)
  | VFloat (q : Q)
  | VShape (s : nat * nat)
  | VInts (l : list Z)
  | VFloats (l : list Q)
  | VStrs (l : list string).

Inductive event : Type :=
  | EvPrint (args : list value)
  | EvListdir (path : string)
  | EvOpen (path : string)
  | EvFit (cfg : lr_config) (x_train : matrix) (y_train : list Z).

(** A computation: the effects performed, in order, and the outcome. *)
Definition M (A : Type) : Type := (list event * result A)%type.

Definition M_ret {A} (a : A) : M A := ([], Ok a).

Definition M_bind {A B} (k : A -> M B) (m : M A) : M B :=
  match m with
  | (t, Ok a) => let '(t', r) := k a in (t ++ t', r)
  | (t, Raise e) => (t, Raise e)
  end.

#[global] Instance M_mret : MRet M := @M_ret.
#[global] Instance M_mbind : MBind M := @M_bind.

Definition raise {A} (e : exn) : M A := ([], Raise e).
Definition emit (e : event) : M unit := ([e], Ok tt).
Definition lift {A} (r : result A) : M A := ([], r).
Definition print (args : list value) : M unit := emit (EvPrint args).

Definition trace {A} (m : M A) : list event := m.1.
Definition outcome {A} (m : M A) : result A := m.2.

Definition result_value {A} (r : result A) : option A :=
  match r with Ok a => Some a | Raise _ => None end.
Definition outcome_value {A} (m : M A) : option A := result_value (outcome m).

Fixpoint foldlM {A B} (f : A -> B -> M A) (a : A) (l : list B) : M A :=
  match l with
  | [] => mret a
  | b :: l' => a' ← f a b; foldlM f a' l'
  end.

(** [l[i]] *)
Definition py_index {A} (l : list A) (i : nat) : M A :=
  match l !! i with
  | Some a => mret a
  | None => raise IndexError
  end.

(** [a[indices]] of numpy, with an array of indices. *)
Fixpoint np_take {A} (l : list A) (indices : list nat) : M (list A) :=
  match indices with
  | [] => mret []
  | i :: indices' => a ← py_index l i; r ← np_take l indices'; mret (a :: r)
  end.

(** ** The world outside the script *)

(** The file system: what [os.listdir] returns for a directory and what a
    file holds. *)
Record filesystem : Type :=
  FileSystem { dirs : gmap string (list string); files : gmap string string }.

(** Python's standard library: the ['unicode-escape'] codec followed by
    UTF-8 encoding, on a line that holds a backslash ([None] when the codec
    raises), and the outcome of [random.shuffle], some rearrangement of its
    argument. *)
Class PyLib : Type := {
  unicode_escape_utf8 : string -> option string;
  shuffle : list string -> list string;
  shuffle_perm : forall l, shuffle l ≡ₚ l
}.

(** [x[i], x[j] = x[j], x[i]] *)
Definition swap (x : list string) (i j : nat) : list string :=
  match x !! i, x !! j with
  | Some a, Some b => <[j:=a]> (<[i:=b]> x)
  | _, _ => x
  end.

(** The loop of [random.shuffle] of Python 2.7, [i] running from the last
    position down to 1 and [j = int(random() * (i+1))]; [rand k] is what the
    [k]-th call of [random()] returns, a number from 0 up to but not
    including 1, so that [j] is in range. *)
Fixpoint shuffle_loop (rand : nat -> Q) (k i : nat) (x : list string)
    : list string :=
  match i with
  | O => x
  | S i' =>
      let j := Z.to_nat (Qfloor (rand k * inject_Z (Z.of_nat (i + 1)))) in
      shuffle_loop rand (S k) i' (swap x i j)
  end.

Definition random_shuffle (rand : nat -> Q) (x : list string) : list string :=
  shuffle_loop rand 0 (length x - 1) x.

(** The numerical libraries, as far as the script calls them:
    scikit-learn, and [numpy.mean] on a list of float64 scores, which sums
    and divides in float64, rounding as it goes. *)
Class SkLearn : Type := {
  model : Type;
  count_fit_transform : vec_config -> list string -> result matrix;
  tfidf_fit_transform : vec_config -> list string -> result matrix;
  skf_split : nat -> bool -> matrix -> list Z ->
              result (list (list nat * list nat));
  lr_fit : lr_config -> matrix -> list Z -> result model;
  lr_score : model -> matrix -> list Z -> Q;
  lr_predict_proba : model -> matrix -> list (Q * Q);
  lr_predict : model -> matrix -> list Z;
  roc_auc_score : list Z -> list Q -> result Q;
  prf_evaluator : list Z -> list Z -> string -> Q * Q * Q * option nat;
  np_mean : list Q -> Q
}.

Definition os_listdir (fs : filesystem) (path : string) : M (list string) :=
  _ ← emit (EvListdir path);
  match dirs fs !! path with
  | Some names => mret names
  | None => raise (OSError path)
  end.

Definition open_read (fs : filesystem) (path : string) : M string :=
  _ ← emit (EvOpen path);
  match files fs !! path with
  | Some content => mret content
  | None => raise (IOError path)
  end.

(** ** Corpus loader *)

Section loader.
Context `{PyLib}.
Variable fs : filesystem.

(** [line.decode('unicode-escape').encode('utf-8')] *)
Definition decode_encode (line : string) : M string :=
  if PyStr.contains PyStr.backslash line then
    match unicode_escape_utf8 line with
    | Some s => mret s
    | None => raise (UnicodeDecodeError line)
    end
  else mret (PyStr.latin1_to_utf8 line).

(** One turn of the loop of [process_post]. *)
Definition process_line (text line : string) : M string :=
  if PyStr.truthy (PyStr.strip line) then
    line' ← decode_encode line;
    mret (text +:+ (PyStr.strip line' +:+ " "))
  else mret text.

Definition process_post (file_path : string) : M string :=
  post ← open_read fs file_path;
  foldlM process_line "" (PyStr.readlines post).

End loader.

(** The data bunch of [construct_data]. *)
Record bunch : Type := Bunch {
  filenames : list string;
  filepath : list string;
  data : list string;
  target : list Z
}.

Section construct.
Context `{PyLib}.
Variable fs : filesystem.
Variables dep_fnames non_dep_fnames : list string.
Variables dep_dir non_dep_dir : string.

(** One turn of the loop of [construct_data], at position [index] of the
    shuffled array of file names. *)
Definition construct_step (file_names : list string) (d : bunch)
    (index : nat) : M bunch :=
  fn ← py_index file_names index;
  let d1 :=
    if bool_decide (fn ∈ dep_fnames) then
      Bunch (filenames d) (filepath d ++ [os_path_join dep_dir fn])
        (data d) (target d ++ [0%Z])
    else
      Bunch (filenames d) (filepath d ++ [os_path_join non_dep_dir fn])
        (data d) (target d ++ [1%Z]) in
  f_path ← py_index (filepath d1) index;
  post_text ← process_post fs f_path;
  mret (Bunch (filenames d1) (filepath d1) (data d1 ++ [post_text])
          (target d1)).

Definition construct_data : M bunch :=
  let file_names := shuffle (dep_fnames ++ non_dep_fnames) in
  foldlM (construct_step file_names) (Bunch file_names [] [] [])
    (seq 0 (length file_names)).

End construct.

(** ** Vectorizer *)

Section pipeline.
Context `{SkLearn}.

Definition make_count_vectors (raw_data : list string) : M matrix :=
  x_counts ← lift (count_fit_transform
                     (VecConfig (1, NGRAM_MAX) ANALYZER "utf8") raw_data);
  _ ← print [VStr "Count vectors shape: "; VShape (shape x_counts)];
  mret x_counts.

Definition make_tfidf_vectors (raw_data : list string) : M matrix :=
  x_tfidf ← lift (tfidf_fit_transform
                    (VecConfig (1, NGRAM_MAX) ANALYZER "utf8") raw_data);
  _ ← print [VStr "Tf-idf vectors shape: "; VShape (shape x_tfidf)];
  mret x_tfidf.

(** ** Cross-validated trainer and evaluator *)

(** [x[indices]] on a sparse matrix selects rows. *)
Definition take_rows (x : matrix) (indices : list nat) : M matrix :=
  r ← np_take (rows x) indices;
  mret (Matrix (n_cols x) r).

Definition train_lr_model (x_train : matrix) (y_train : list Z) : M model :=
  let cfg := LrConfig PENALTY (Some "balanced") in
  _ ← emit (EvFit cfg x_train y_train);
  lift (lr_fit cfg x_train y_train).

End pipeline.

(** The evaluation bunch of one fold. *)
Module FoldEv.
Record t : Type := Make {
  cv : Q; roc : Q; precision : Q; recall : Q; fscore : Q; supp : option nat
}.
End FoldEv.

(** The evaluation bunch [classify_kfold] returns. *)
Module Evaluation.
Record t : Type := Make {
  precision : list Q; recall : list Q; fscore : list Q; cv : Q; roc : Q
}.
End Evaluation.

Section kfold.
Context `{SkLearn}.

Definition evaluate (m : model) (x_test : matrix) (y_test : list Z)
    : M FoldEv.t :=
  let ev_cv := lr_score m x_test y_test in
  let y_pred_lr := snd <$> lr_predict_proba m x_test in
  ev_roc ← lift (roc_auc_score y_test y_pred_lr);
  let '(p, r, f, s) :=
    prf_evaluator y_test (lr_predict m x_test) EVAL_AVERAGE in
  mret (FoldEv.Make ev_cv ev_roc p r f s).

(** The lists [classify_kfold] appends to. *)
Record kfold_acc : Type := KfoldAcc {
  acc_precision : list Q;
  acc_recall : list Q;
  acc_fscore : list Q;
  cv_mean : list Q;
  roc_mean : list Q
}.

(** The body of the loop of [classify_kfold]. *)
Definition classify_fold (x : matrix) (y : list Z) (a : kfold_acc)
    (it : nat * (list nat * list nat)) : M kfold_acc :=
  let '(indx, (train_indices, test_indices)) := it in
  _ ← print [VStr ("Training on fold " +:+ pretty (indx + 1)%nat
                   +:+ "/10...")];
  x_train ← take_rows x train_indices;
  x_test ← take_rows x test_indices;
  y_train ← np_take y train_indices;
  y_test ← np_take y test_indices;
  lr_model ← train_lr_model x_train y_train;
  fold_ev ← evaluate lr_model x_test y_test;
  mret (KfoldAcc (acc_precision a ++ [FoldEv.precision fold_ev])
          (acc_recall a ++ [FoldEv.recall fold_ev])
          (acc_fscore a ++ [FoldEv.fscore fold_ev])
          (cv_mean a ++ [FoldEv.cv fold_ev])
          (roc_mean a ++ [FoldEv.roc fold_ev])).

(** [enumerate(l)] *)
Definition enumerate {A} (l : list A) : list (nat * A) :=
  zip (seq 0 (length l)) l.

Definition classify_kfold (x : matrix) (y : list Z) : M Evaluation.t :=
  folds ← lift (skf_split KFOLD_SPLITS true x y);
  a ← foldlM (classify_fold x y) (KfoldAcc [] [] [] [] []) (enumerate folds);
  mret (Evaluation.Make (acc_precision a) (acc_recall a) (acc_fscore a)
          (np_mean (cv_mean a)) (np_mean (roc_mean a))).

End kfold.

(** ** The script *)

Section script.
Context `{PyLib} `{SkLearn}.
Variable fs : filesystem.

Definition nl (s : string) : string := String PyStr.newline s.

Definition report (e : Evaluation.t) : M unit :=
  _ ← print [VStr (nl "cross validation: "); VFloat (Evaluation.cv e)];
  _ ← print [VStr "roc: "; VFloat (Evaluation.roc e)];
  _ ← print [VStr "precision for the first 10: ";
             VFloats (take 10 (Evaluation.precision e))];
  _ ← print [VStr "recall for the first 10: ";
             VFloats (take 10 (Evaluation.recall e))];
  print [VStr "f-score for the first 10: ";
         VFloats (take 10 (Evaluation.fscore e))].

Definition main : M unit :=
  _ ← print [VStr (nl "Processing data")];
  dep_fnames ← os_listdir fs DEP;
  non_dep_fnames ← os_listdir fs NON_DEP;
  _ ← print [VStr "number of depression files: ";
             VInt (length dep_fnames)];
  _ ← print [VStr "number of non-depression files: ";
             VInt (length non_dep_fnames)];
  d ← construct_data fs dep_fnames non_dep_fnames DEP NON_DEP;
  _ ← print [VStr "number of texts in data "; VInt (length (data d))];
  _ ← print [VStr "targets for the first 10 files: ";
             VInts (take 10 (target d))];
  _ ← print [VStr "number of targets of files in data";
             VInt (length (target d))];
  _ ← print [VStr "first 2 files: "; VStrs (take 2 (data d))];
  _ ← print [VStr (nl "creating data vectors")];
  _ ← print [VStr (nl "count vectors: " +:+ nl "")];
  let labels := target d in
  X_counts ← make_count_vectors (data d);
  count_eval ← classify_kfold X_counts labels;
  _ ← report count_eval;
  _ ← print [VStr (nl "Tf-idf vectors: " +:+ nl "")];
  X_tfidf ← make_tfidf_vectors (data d);
  tfidf_eval ← classify_kfold X_tfidf labels;
  report tfidf_eval.

End script.

(** ** Reference instances of the two interfaces

    Small executable stand-ins, used to run the script on concrete file
    systems. *)

Module Ref.

(** [random.shuffle] that happens to draw the identity; every escape
    sequence is rejected. *)
Definition py_keep : PyLib :=
  {| unicode_escape_utf8 := fun _ => None;
     shuffle := fun l => l;
     shuffle_perm := fun l => reflexivity l |}.

(** [random.shuffle] that happens to reverse the array. *)
Definition py_reverse : PyLib :=
  {| unicode_escape_utf8 := fun _ => None;
     shuffle := reverse;
     shuffle_perm := fun l => reverse_Permutation l |}.

(** Word n-grams of one document, for n in the given range. *)
Definition word_ngrams (rng : nat * nat) (doc : string) : list string :=
  let toks := String.words doc in
  n ← seq rng.1 (S rng.2 - rng.1);
  i ← seq 0 (length toks);
  let g := take n (drop i toks) in
  if bool_decide (length g = n ∧ n ≠ 0%nat) then [PyStr.join " " g] else [].

Definition vocabulary (cfg : vec_config) (docs : list string)
    : list string :=
  remove_dups (docs ≫= word_ngrams (ngram_range cfg)).

Definition occurrences (t : string) (l : list string) : nat :=
  length (filter (fun u => u = t) l).

Definition Qnat (n : nat) : Q := inject_Z (Z.of_nat n).

Definition counts (cfg : vec_config) (docs : list string)
    : result matrix :=
  if bool_decide (analyzer cfg = "word") then
    let v := vocabulary cfg docs in
    match v with
    | [] => Raise (ValueError "empty vocabulary")
    | _ =>
        Ok (Matrix (length v)
              ((fun d => (fun t => Qnat (occurrences t
                                           (word_ngrams (ngram_range cfg) d)))
                         <$> v) <$> docs))
    end
  else Raise (ValueError "unsupported analyzer").

(** Document frequency of column [j]. *)
Definition doc_freq (m : matrix) (j : nat) : nat :=
  length (filter (fun r => match r !! j with
                           | Some q => negb (Qeq_bool q 0)
                           | None => false
                           end = true) (rows m)).

(** Counts re-weighted by a smoothed inverse document frequency. *)
Definition tfidf (cfg : vec_config) (docs : list string) : result matrix :=
  match counts cfg docs with
  | Ok m =>
      let n := length (rows m) in
      Ok (Matrix (n_cols m)
            ((fun r => imap (fun j q =>
                               (q * (Qnat (S n) / Qnat (S (doc_freq m j))))%Q)
                         r) <$> rows m))
  | Raise e => Raise e
  end.

Definition class_count (y : list Z) (c : Z) : nat :=
  length (filter (fun l => l = c) y).

Definition classes (y : list Z) : list Z := remove_dups y.

(** Fold of each sample: its rank among the samples of its class, modulo
    the number of folds. *)
Definition fold_of (n_splits : nat) (y : list Z) (i : nat) : nat :=
  match y !! i with
  | Some c => class_count (take i y) c mod n_splits
  | None => 0
  end.

(** A stratified splitter without shuffling.  Like [StratifiedKFold], it
    rejects the labels when there are more folds than samples or when every
    class has fewer members than folds, and accepts them otherwise. *)
Definition split (n_splits : nat) (shuffled : bool) (x : matrix)
    (y : list Z) : result (list (list nat * list nat)) :=
  let n := length y in
  if (n <? n_splits)%nat then
    Raise (ValueError "more splits than samples")
  else if forallb (fun c => (class_count y c <? n_splits)%nat) (classes y)
  then Raise (ValueError "more splits than members in each class")
  else
    Ok ((fun k =>
           (filter (fun i => fold_of n_splits y i ≠ k) (seq 0 n),
            filter (fun i => fold_of n_splits y i = k) (seq 0 n)))
        <$> seq 0 n_splits).

(** A nearest-mean classifier on the sum of a row. *)
Record centroid : Type := Centroid { mean0 : Q; mean1 : Q }.

Definition row_sum (r : list Q) : Q := foldr Qplus 0%Q r.

Definition class_mean (x : matrix) (y : list Z) (c : Z) : Q :=
  let sel := (zip (rows x) y) ≫=
             (fun p => if bool_decide (p.2 = c) then [row_sum p.1] else [])
  in (foldr Qplus 0 sel / Qnat (length sel))%Q.

(** Like [LogisticRegression.fit], it rejects training labels of fewer
    than two classes. *)
Definition fit (cfg : lr_config) (x : matrix) (y : list Z)
    : result centroid :=
  if (length (classes y) <? 2)%nat then
    Raise (ValueError "needs samples of at least 2 classes")
  else Ok (Centroid (class_mean x y 0) (class_mean x y 1)).

Definition Qdist (a b : Q) : Q := Qabs (a - b).

Definition predict_row (m : centroid) (r : list Q) : Z :=
  if Qle_bool (Qdist (row_sum r) (mean1 m)) (Qdist (row_sum r) (mean0 m))
  then 1 else 0.

Definition predict (m : centroid) (x : matrix) : list Z :=
  predict_row m <$> rows x.

Definition predict_proba (m : centroid) (x : matrix) : list (Q * Q) :=
  (fun r => if bool_decide (predict_row m r = 1%Z) then (0, 1)%Q
            else (1, 0)%Q) <$> rows x.

Definition score (m : centroid) (x : matrix) (y : list Z) : Q :=
  (Qnat (length (filter (fun p => p.1 = p.2) (zip (predict m x) y)))
   / Qnat (length y))%Q.

(** Area under the ROC curve by counting the ordered pairs. *)
Definition roc_auc (y_true : list Z) (y_score : list Q) : result Q :=
  let pos := (zip y_true y_score) ≫=
             (fun p => if bool_decide (p.1 = 1%Z) then [p.2] else []) in
  let neg := (zip y_true y_score) ≫=
             (fun p => if bool_decide (p.1 = 1%Z) then [] else [p.2]) in
  match pos, neg with
  | [], _ | _, [] => Raise (ValueError "only one class present in y_true")
  | _, _ =>
      let pairs := p ← pos; n ← neg;
                   [if Qeq_bool p n then (1 # 2)%Q
                    else if Qle_bool n p then 1%Q else 0%Q] in
      Ok (foldr Qplus 0 pairs / Qnat (length pairs))%Q
  end.

Definition ratio (a b : nat) : Q :=
  match b with O => 0%Q | _ => (Qnat a / Qnat b)%Q end.

Definition prf (y_true y_pred : list Z) (average : string)
    : Q * Q * Q * option nat :=
  let ps := zip y_true y_pred in
  let tp := length (filter (fun p => p.1 = 1%Z ∧ p.2 = 1%Z) ps) in
  let fp := length (filter (fun p => p.1 ≠ 1%Z ∧ p.2 = 1%Z) ps) in
  let fn := length (filter (fun p => p.1 = 1%Z ∧ p.2 ≠ 1%Z) ps) in
  let p := ratio tp (tp + fp) in
  let r := ratio tp (tp + fn) in
  let f := if Qeq_bool (p + r) 0 then 0%Q else (2 * p * r / (p + r))%Q in
  (p, r, f, None).

(** The float64 nearest to a rational with a small numerator and
    denominator, and the rational a finite float64 denotes. *)
Definition to_float64 (q : Q) : PrimFloat.float :=
  let n := PrimFloat.of_uint63 (Uint63.of_Z (Z.abs (Qnum q))) in
  let d := PrimFloat.of_uint63 (Uint63.of_Z (Zpos (Qden q))) in
  if (Qnum q <? 0)%Z then PrimFloat.opp (PrimFloat.div n d)
  else PrimFloat.div n d.

Definition of_float64 (f : PrimFloat.float) : Q :=
  match FloatOps.Prim2SF f with
  | SpecFloat.S754_finite s m e =>
      Qred (inject_Z (if s then Zneg m else Zpos m) * Qpower 2 e)
  | _ => 0%Q
  end.

Definition float_zero : PrimFloat.float := PrimFloat.of_uint63 (Uint63.of_Z 0).

(** [res += a] for each [a], from the left. *)
Fixpoint add_from (res : PrimFloat.float) (l : list PrimFloat.float)
    : PrimFloat.float :=
  match l with
  | [] => res
  | a :: l' => add_from (PrimFloat.add res a) l'
  end.

(** The sum of 8 to 128 numbers: eight running sums over the blocks of
    eight, added up in pairs, then the numbers left over. *)
Definition block_sum (l : list PrimFloat.float) : PrimFloat.float :=
  let n := length l in
  let r := foldl (zip_with PrimFloat.add) (take 8 l)
             ((fun k => take 8 (drop (8 * k) l)) <$> seq 1 (n / 8 - 1)) in
  match r with
  | [r0; r1; r2; r3; r4; r5; r6; r7] =>
      add_from
        (PrimFloat.add
           (PrimFloat.add (PrimFloat.add r0 r1) (PrimFloat.add r2 r3))
           (PrimFloat.add (PrimFloat.add r4 r5) (PrimFloat.add r6 r7)))
        (drop (n - n mod 8) l)
  | _ => float_zero
  end.

(** Pairwise summation, as numpy adds up a contiguous float64 array: fewer
    than 8 numbers from the left, up to 128 by [block_sum], more by halves.
    The length of the list is fuel enough. *)
Fixpoint pairwise_sum (fuel : nat) (l : list PrimFloat.float)
    : PrimFloat.float :=
  let n := length l in
  if (n <? 8)%nat then add_from float_zero l
  else if (n <=? 128)%nat then block_sum l
  else match fuel with
       | O => float_zero
       | S fuel' =>
           let n2 := (n / 2 - (n / 2) mod 8)%nat in
           PrimFloat.add (pairwise_sum fuel' (take n2 l))
             (pairwise_sum fuel' (drop n2 l))
       end.

(** A stand-in for [numpy.mean]: the float64 sum divided by the count in
    float64.  The mean of no score, not a number in numpy, is 0 here. *)
Definition mean (l : list Q) : Q :=
  let l64 := to_float64 <$> l in
  of_float64
    (PrimFloat.div (PrimFloat.add float_zero (pairwise_sum (length l64) l64))
       (PrimFloat.of_uint63 (Uint63.of_Z (Z.of_nat (length l64))))).

Definition sklearn : SkLearn :=
  {| model := centroid;
     count_fit_transform := counts;
     tfidf_fit_transform := tfidf;
     skf_split := split;
     lr_fit := fit;
     lr_score := score;
     lr_predict_proba := predict_proba;
     lr_predict := predict;
     roc_auc_score := roc_auc;
     prf_evaluator := prf;
     np_mean := mean |}.

End Ref.

(** ** Specification vocabulary *)

(** A line is kept by [process_post] when stripping leaves something. *)
Definition nonblank (line : string) : bool := PyStr.truthy (PyStr.strip line).

Definition nonblank_lines (content : string) : list string :=
  filter (fun l => nonblank l = true) (PyStr.readlines content).

(** The re-encoded line, when the codec accepts it. *)
Definition decoded `{PyLib} (line : string) : option string :=
  if PyStr.contains PyStr.backslash line then unicode_escape_utf8 line
  else Some (PyStr.latin1_to_utf8 line).

(** A file [process_post] can read: it exists and each of its non-blank
    lines decodes. *)
Definition readable `{PyLib} (fs : filesystem) (path : string) : bool :=
  match files fs !! path with
  | Some content => forallb (fun l => bool_decide (is_Some (decoded l)))
                      (nonblank_lines content)
  | None => false
  end.

(** The label and the path [construct_data] gives to a file name. *)
Definition label_of (dep_fnames : list string) (fn : string) : Z :=
  if bool_decide (fn ∈ dep_fnames) then 0 else 1.

Definition path_of (dep_fnames : list string) (dep_dir non_dep_dir : string)
    (fn : string) : string :=
  if bool_decide (fn ∈ dep_fnames) then os_path_join dep_dir fn
  else os_path_join non_dep_dir fn.

(** The calls of [LogisticRegression.fit] among the effects. *)
Definition is_fit (e : event) : bool :=
  match e with EvFit _ _ _ => true | _ => false end.

Definition fits (t : list event) : list event :=
  filter (fun e => is_fit e = true) t.

(** The text accumulated from the decoded lines: each one stripped and
    followed by a space. *)
Definition spaced (texts : list string) : string :=
  foldr (fun s acc => (PyStr.strip s +:+ " ") +:+ acc) "" texts.

(** One record, as the loop of [construct_data] builds it: the text of the
    file at the path of the name. *)
Definition load_record `{PyLib} (fs : filesystem) (dep_fnames : list string)
    (dep_dir non_dep_dir : string) (fn : string) : M string :=
  process_post fs (path_of dep_fnames dep_dir non_dep_dir fn).

(** A name as [os.listdir] returns it holds no slash. *)
Definition no_slash (s : string) : Prop := PyStr.contains PyStr.slash s = false.

(** The directory part [os.path.join] puts before a relative name. *)
Definition dir_prefix (a : string) : string :=
  if bool_decide (a = "") || PyStr.endswith_slash a then a else a +:+ "/".

(** How many labels of a label vector are [c]. *)
Definition count_label (c : Z) (labels : list Z) : nat :=
  length (filter (fun t => t = c) labels).

(** [l[indices]] when every index is in range. *)
Definition select {A} (l : list A) (indices : list nat) : option (list A) :=
  mapM (fun i => l !! i) indices.

Section folds.
Context `{SkLearn}.

(** What one turn of the loop of [classify_kfold] computes for its fold. *)
Definition fold_run (x : matrix) (y : list Z)
    (it : nat * (list nat * list nat)) : M FoldEv.t :=
  let '(indx, (train_indices, test_indices)) := it in
  _ ← print [VStr ("Training on fold " +:+ pretty (indx + 1)%nat
                   +:+ "/10...")];
  x_train ← take_rows x train_indices;
  x_test ← take_rows x test_indices;
  y_train ← np_take y train_indices;
  y_test ← np_take y test_indices;
  lr_model ← train_lr_model x_train y_train;
  evaluate lr_model x_test y_test.

(** The call of [fit] the script makes for a fold. *)
Definition fold_fit (x : matrix) (y : list Z)
    (fold : list nat * list nat) : option event :=
  x_train ← select (rows x) fold.1;
  y_train ← select y fold.1;
  Some (EvFit (LrConfig "l1" (Some "balanced")) (Matrix (n_cols x) x_train)
          y_train).

End folds.

(** A computation that calls [fit] never. *)
Definition quiet {A} (m : M A) : Prop := fits (trace m) = [].

(** A computation that ends in an exception after at most [n] calls of
    [fit]. *)
Definition fails_within {A} (n : nat) (m : M A) : Prop :=
  (exists e, outcome m = Raise e) /\ (length (fits (trace m)) <= n)%nat.

(** ** Library contracts *)

(** Modelled from the spec: the fitted vocabulary of scikit-learn's
    vectorizers, whose code is not part of the script.  A matrix has one row
    for each text, and "output matrix column count is determined by
    vocabulary discovered in the corpus", the vocabulary depending on the
    tokenization configuration only. *)
Class VectorizerLaws `{SkLearn} : Prop := {
  shape_by_vocabulary :
    exists vocabulary_size : vec_config -> list string -> nat,
      (forall cfg docs m,
         count_fit_transform cfg docs = Ok m ->
         shape m = (length docs, vocabulary_size cfg docs)) /\
      (forall cfg docs m,
         tfidf_fit_transform cfg docs = Ok m ->
         shape m = (length docs, vocabulary_size cfg docs))
}.

(** Modelled from the spec: the behaviour of scikit-learn's splitter and
    classifier, whose code is not part of the script.  The splitter
    partitions "into a configured number of stratified folds", and "if any
    fold contains a class with zero training examples, the underlying
    classifier fit fails". *)
Class TrainerLaws `{SkLearn} : Prop := {
  split_length : forall n shuffled x y folds,
    skf_split n shuffled x y = Ok folds -> length folds = n;
  fit_two_classes : forall cfg x y m,
    lr_fit cfg x y = Ok m -> exists a b, a ∈ y /\ b ∈ y /\ a ≠ b
}.

(** ** Example file systems *)

Definition nl_after (s : string) : string := s +:+ String PyStr.newline "".

(** Two posts of the depression class and one of the other class, the
    second post being all blank. *)
Definition fs_posts : filesystem :=
  FileSystem
    {[ "./mixed_depression" := ["p1.txt"; "p2.txt"];
       "./mixed_non_depression" := ["q1.txt"] ]}
    {[ "./mixed_depression/p1.txt" :=
         nl_after "sad" +:+ nl_after "" +:+ nl_after "  very sad ";
       "./mixed_depression/p2.txt" := nl_after "  " +:+ nl_after "";
       "./mixed_non_depression/q1.txt" := "fine day" ]}.

(** One post in each directory, under the same file name. *)
Definition fs_shared : filesystem :=
  FileSystem
    {[ "./mixed_depression" := ["post.txt"];
       "./mixed_non_depression" := ["post.txt"] ]}
    {[ "./mixed_depression/post.txt" := nl_after "i feel hopeless";
       "./mixed_non_depression/post.txt" := nl_after "what a great day" ]}.

(** Ten posts, all in the non-depression directory. *)
Definition single_names : list string :=
  ["q0.txt"; "q1.txt"; "q2.txt"; "q3.txt"; "q4.txt"; "q5.txt"; "q6.txt";
   "q7.txt"; "q8.txt"; "q9.txt"].

Definition fs_single : filesystem :=
  FileSystem
    {[ "./mixed_depression" := []; "./mixed_non_depression" := single_names ]}
    (list_to_map
       ((fun fn => (os_path_join NON_DEP fn, nl_after "what a fine day"))
        <$> single_names)).

(** Twenty samples with one feature, ten of each class. *)
Definition x20 : matrix :=
  Matrix 1 ((fun n => [inject_Z n]) <$>
            [1; 6; 2; 5; 1; 6; 2; 5; 1; 6; 2; 5; 1; 6; 2; 5; 1; 6; 2; 5]%Z).

Definition y20 : list Z :=
  [0; 1; 0; 1; 0; 1; 0; 1; 0; 1; 0; 1; 0; 1; 0; 1; 0; 1; 0; 1]%Z.


(** ** Further vocabulary *)

(** Every byte of a string passes a test. *)
Fixpoint all_chars (P : ascii -> bool) (s : string) : bool :=
  match s with
  | EmptyString => true
  | String c s' => P c && all_chars P s'
  end.

Definition is_not (c : ascii) (d : ascii) : bool := negb (bool_decide (c = d)).

(** A string without backslash, and one without newline. *)
Definition no_backslash (s : string) : Prop :=
  all_chars (is_not PyStr.backslash) s = true.

Definition no_newline (s : string) : Prop :=
  all_chars (is_not PyStr.newline) s = true.

(** A string of 7-bit bytes without backslash. *)
Definition plain (s : string) : Prop :=
  all_chars (fun c => (nat_of_ascii c <? 128)%nat && is_not PyStr.backslash c) s
  = true.

(** The same post twice, the second time with blank lines around. *)
Definition fs_blank : filesystem :=
  FileSystem ∅
    {[ "a.txt" := nl_after "sad" +:+ nl_after "  very sad ";
       "b.txt" := nl_after "" +:+ nl_after "sad" +:+ nl_after "   "
                  +:+ nl_after "  very sad " +:+ nl_after "" ]}.

Section held_out_scores.
Context `{SkLearn}.

(** The scores of a fold, as [train_lr_model] and [evaluate] compute them:
    the classifier is fitted on the training rows and labels of the fold,
    and scored on its test rows and labels only. *)
Definition held_out (x : matrix) (y : list Z) (fold : list nat * list nat)
    (ev : FoldEv.t) : Prop :=
  exists x_train x_test y_train y_test m ev_roc,
    select (rows x) fold.1 = Some x_train /\
    select (rows x) fold.2 = Some x_test /\
    select y fold.1 = Some y_train /\
    select y fold.2 = Some y_test /\
    lr_fit (LrConfig "l1" (Some "balanced")) (Matrix (n_cols x) x_train)
      y_train = Ok m /\
    roc_auc_score y_test
      (snd <$> lr_predict_proba m (Matrix (n_cols x) x_test)) = Ok ev_roc /\
    ev = (let '(p, r, f, s) :=
            prf_evaluator y_test (lr_predict m (Matrix (n_cols x) x_test))
              "binary" in
          FoldEv.Make (lr_score m (Matrix (n_cols x) x_test) y_test) ev_roc
            p r f s).

End held_out_scores.

(** The line [classify_kfold] prints before fold [indx]. *)
Definition progress_line (indx : nat) : event :=
  EvPrint [VStr ("Training on fold " +:+ pretty (indx + 1)%nat +:+ "/10...")].

(** The files opened among the effects. *)
Definition is_open (e : event) : bool :=
  match e with EvOpen _ => true | _ => false end.

Definition opens (t : list event) : list event :=
  filter (fun e => is_open e = true) t.

(** A computation that opens no file. *)
Definition closed {A} (m : M A) : Prop := opens (trace m) = [].

(** Effects in two phases: no call of [fit] in the first, no file opened in
    the second. *)
Definition phased (t : list event) : Prop :=
  exists t1 t2, t = t1 ++ t2 /\ fits t1 = [] /\ opens t2 = [].

(** A depression directory that lists a post which is not there. *)
Definition fs_missing : filesystem :=
  FileSystem
    {[ "./mixed_depression" := ["gone.txt"]; "./mixed_non_depression" := [] ]}
    ∅.

(** Twenty labels, nine of class 0: with ten folds the last fold has no
    sample of class 0 to test on. *)
Definition y20_short : list Z :=
  [0; 1; 0; 1; 0; 1; 0; 1; 0; 1; 0; 1; 0; 1; 0; 1; 0; 1; 1; 1]%Z.

(** Ten posts in each directory. *)
Definition corpus_names : list string :=
  ["d0.txt"; "d1.txt"; "d2.txt"; "d3.txt"; "d4.txt"; "d5.txt"; "d6.txt";
   "d7.txt"; "d8.txt"; "d9.txt"].

Definition fs_corpus : filesystem :=
  FileSystem
    {[ "./mixed_depression" := corpus_names;
       "./mixed_non_depression" := single_names ]}
    (list_to_map
       (((fun fn => (os_path_join DEP fn, nl_after "so sad")) <$> corpus_names)
        ++ ((fun fn => (os_path_join NON_DEP fn, nl_after "what a fine day"))
            <$> single_names))).

(** * Facts *)

(** ** Strings *)

Lemma string_app_cons (c : ascii) (s t : string) :
  String c s +:+ t = String c (s +:+ t).
Proof. reflexivity. Qed.

Lemma string_app_nil_l (s : string) : "" +:+ s = s.
Proof. reflexivity. Qed.

Lemma string_app_nil_r (s : string) : s +:+ "" = s.
Proof.
  induction s as [|c s IH]; [done|]. by rewrite string_app_cons, IH.
Qed.

Lemma string_app_assoc (s t u : string) : (s +:+ t) +:+ u = s +:+ (t +:+ u).
Proof.
  induction s as [|c s IH]; [done|]. by rewrite !string_app_cons, IH.
Qed.

(** ** Computations *)

Section monad_facts.
Context {A B C : Type}.

Lemma bind_ret_l (a : A) (k : A -> M B) : (mret a ≫= k) = k a.
Proof. unfold mret, mbind, M_mret, M_mbind, M_ret, M_bind. by destruct (k a). Qed.

Lemma bind_ret_r (m : M A) : (m ≫= mret) = m.
Proof.
  destruct m as [t [a|e]]; unfold mret, mbind, M_mret, M_mbind; simpl;
    [by rewrite app_nil_r | done].
Qed.

Lemma bind_assoc (m : M A) (k : A -> M B) (h : B -> M C) :
  ((m ≫= k) ≫= h) = (m ≫= fun a => k a ≫= h).
Proof.
  destruct m as [t [a|e]]; unfold mbind, M_mbind; simpl; [|done].
  destruct (k a) as [t1 [b|e1]]; simpl; [|done].
  destruct (h b) as [t2 r]. by rewrite app_assoc.
Qed.

Lemma bind_emit (ev : event) (m : M B) :
  (emit ev ≫= fun _ => m) = (ev :: trace m, outcome m).
Proof. unfold mbind, M_mbind, emit; simpl. by destruct m. Qed.

Lemma bind_unfold (m : M A) (k : A -> M B) :
  (m ≫= k) =
  match outcome m with
  | Ok a => (trace m ++ trace (k a), outcome (k a))
  | Raise e => (trace m, Raise e)
  end.
Proof.
  destruct m as [t [a|e]]; unfold mbind, M_mbind; simpl; [|done].
  by destruct (k a).
Qed.

Lemma outcome_bind (m : M A) (k : A -> M B) :
  outcome (m ≫= k) =
  match outcome m with Ok a => outcome (k a) | Raise e => Raise e end.
Proof. rewrite bind_unfold. by destruct (outcome m). Qed.

Lemma trace_bind (m : M A) (k : A -> M B) :
  trace (m ≫= k) =
  match outcome m with Ok a => trace m ++ trace (k a) | Raise _ => trace m end.
Proof. rewrite bind_unfold. by destruct (outcome m). Qed.

End monad_facts.

Lemma trace_mret {A} (a : A) : trace (mret a : M A) = [].
Proof. done. Qed.

(** ** [process_post] *)

Lemma join_trailing_space (l : list string) :
  l ≠ [] ->
  foldr (fun s acc => (s +:+ " ") +:+ acc) "" l = PyStr.join " " l +:+ " ".
Proof.
  induction l as [|a l IH]; [done|]. intros _.
  destruct l as [|b l].
  - simpl. by rewrite string_app_nil_r.
  - change (PyStr.join " " (a :: b :: l))
      with (a +:+ (" " +:+ PyStr.join " " (b :: l))).
    change (foldr _ "" (a :: b :: l))
      with ((a +:+ " ") +:+
            foldr (fun s acc => (s +:+ " ") +:+ acc) "" (b :: l)).
    rewrite IH by done. by rewrite !string_app_assoc.
Qed.

Lemma spaced_join (texts : list string) :
  spaced texts =
  match texts with
  | [] => ""
  | _ => PyStr.join " " (PyStr.strip <$> texts) +:+ " "
  end.
Proof.
  destruct texts as [|t texts]; [done|].
  rewrite <- join_trailing_space by done.
  unfold spaced. generalize (t :: texts) as l.
  induction l as [|a l IH]; [done|]. simpl. by rewrite IH.
Qed.

Section loader_facts.
Context `{PyLib}.
Variable fs : filesystem.

Lemma decode_encode_decoded (line : string) :
  decode_encode line =
  match decoded line with
  | Some s => mret s
  | None => raise (UnicodeDecodeError line)
  end.
Proof.
  unfold decode_encode, decoded.
  destruct (PyStr.contains _ _); [|done].
  by destruct (unicode_escape_utf8 line).
Qed.

Lemma process_line_blank (text line : string) :
  nonblank line = false -> process_line text line = mret text.
Proof. unfold process_line, nonblank. by intros ->. Qed.

Lemma process_line_decoded (text line s : string) :
  nonblank line = true -> decoded line = Some s ->
  process_line text line = mret (text +:+ (PyStr.strip s +:+ " ")).
Proof.
  unfold process_line, nonblank. intros -> Hs.
  by rewrite decode_encode_decoded, Hs, bind_ret_l.
Qed.

Lemma process_line_undecoded (text line : string) :
  nonblank line = true -> decoded line = None ->
  process_line text line = raise (UnicodeDecodeError line).
Proof.
  unfold process_line, nonblank. intros -> Hs.
  by rewrite decode_encode_decoded, Hs.
Qed.

(** The loop over the lines, from any text accumulated so far. *)
Lemma process_lines (lines : list string) :
  forall text texts,
    mapM decoded (filter (fun l => nonblank l = true) lines) = Some texts ->
    foldlM process_line text lines = mret (text +:+ spaced texts).
Proof.
  induction lines as [|line lines IH]; intros text texts Hm.
  - simpl in Hm. injection Hm as <-. simpl. by rewrite string_app_nil_r.
  - rewrite filter_cons in Hm. destruct (decide (nonblank line = true)) as [Hb|Hb].
    + apply mapM_Some in Hm. inversion Hm as [|? s ? texts' Hs Hrest]; subst.
      apply mapM_Some in Hrest.
      simpl. rewrite (process_line_decoded _ _ s) by done.
      rewrite bind_ret_l, (IH _ texts') by done.
      by rewrite string_app_assoc.
    + apply not_true_is_false in Hb.
      simpl. rewrite process_line_blank by done.
      rewrite bind_ret_l. by apply IH.
Qed.

Lemma process_lines_undecoded (lines : list string) :
  forall text,
    mapM decoded (filter (fun l => nonblank l = true) lines) = None ->
    exists l, l ∈ lines /\
              foldlM process_line text lines = raise (UnicodeDecodeError l).
Proof.
  induction lines as [|line lines IH]; intros text Hm; [done|].
  rewrite filter_cons in Hm. destruct (decide (nonblank line = true)) as [Hb|Hb].
  - simpl in Hm. destruct (decoded line) as [s|] eqn:Hs.
    + destruct (mapM decoded _) as [r|] eqn:Hr; [done|].
      destruct (IH (text +:+ (PyStr.strip s +:+ " ")) eq_refl) as (l & Hl & Hf).
      exists l. split; [by right|].
      simpl. by rewrite (process_line_decoded _ _ s), bind_ret_l.
    + exists line. split; [by left|].
      simpl. by rewrite process_line_undecoded.
  - apply not_true_is_false in Hb.
    destruct (IH text Hm) as (l & Hl & Hf).
    exists l. split; [by right|].
    simpl. by rewrite process_line_blank, bind_ret_l.
Qed.

Lemma process_post_open (file_path : string) :
  process_post fs file_path =
  match files fs !! file_path with
  | Some content =>
      (EvOpen file_path :: trace (foldlM process_line "" (PyStr.readlines content)),
       outcome (foldlM process_line "" (PyStr.readlines content)))
  | None => ([EvOpen file_path], Raise (IOError file_path))
  end.
Proof.
  unfold process_post, open_read.
  rewrite bind_assoc, bind_emit.
  destruct (files fs !! file_path) as [content|]; [|done].
  by rewrite bind_ret_l.
Qed.

Lemma process_post_decoded (file_path content : string) (texts : list string) :
  files fs !! file_path = Some content ->
  mapM decoded (nonblank_lines content) = Some texts ->
  process_post fs file_path = ([EvOpen file_path], Ok (spaced texts)).
Proof.
  intros Hf Hm. rewrite process_post_open, Hf.
  by rewrite (process_lines _ "" texts Hm).
Qed.

Lemma trace_process_post (file_path : string) :
  trace (process_post fs file_path) = [EvOpen file_path].
Proof.
  rewrite process_post_open.
  destruct (files fs !! file_path) as [content|]; [|done].
  destruct (mapM decoded (nonblank_lines content)) as [texts|] eqn:Hm.
  - by rewrite (process_lines _ "" texts Hm).
  - destruct (process_lines_undecoded _ "" Hm) as (l & _ & ->). done.
Qed.

Lemma readable_decoded (file_path : string) :
  readable fs file_path = true <->
  exists content texts,
    files fs !! file_path = Some content /\
    mapM decoded (nonblank_lines content) = Some texts.
Proof.
  unfold readable. split.
  - destruct (files fs !! file_path) as [content|]; [|done].
    intros Hall. exists content.
    destruct (mapM_is_Some_2 decoded (nonblank_lines content)) as [texts Ht].
    + apply Forall_forall. intros l Hl.
      rewrite forallb_forall in Hall.
      apply list_elem_of_In, Hall in Hl. by apply bool_decide_eq_true in Hl.
    + eauto.
  - intros (content & texts & -> & Hm).
    apply forallb_forall. intros l Hl. apply bool_decide_eq_true.
    assert (Forall (is_Some ∘ decoded) (nonblank_lines content)) as Hall
      by (apply mapM_is_Some; eauto).
    rewrite Forall_forall in Hall. by apply Hall, list_elem_of_In.
Qed.

Lemma process_post_readable (file_path : string) :
  readable fs file_path = true <->
  exists text, outcome (process_post fs file_path) = Ok text.
Proof.
  rewrite readable_decoded. split.
  - intros (content & texts & Hf & Hm).
    exists (spaced texts). by rewrite (process_post_decoded _ content texts).
  - intros [text Ht]. rewrite process_post_open in Ht.
    destruct (files fs !! file_path) as [content|]; [|done].
    exists content.
    destruct (mapM decoded (nonblank_lines content)) as [texts|] eqn:Hm;
      [eauto|].
    destruct (process_lines_undecoded _ "" Hm) as (l & _ & Hl).
    simpl in Ht. unfold nonblank_lines in Hm. by rewrite Hl in Ht.
Qed.

End loader_facts.

(** ** Lists of computations *)

Lemma py_index_Some {A} (l : list A) (i : nat) (a : A) :
  l !! i = Some a -> py_index l i = mret a.
Proof. unfold py_index. by intros ->. Qed.

Lemma bind_ext {A B} (m : M A) (k k' : A -> M B) :
  (forall a, k a = k' a) -> (m ≫= k) = (m ≫= k').
Proof.
  intros Hk. destruct m as [t [a|e]]; unfold mbind, M_mbind; simpl; [|done].
  by rewrite Hk.
Qed.

Lemma mapM_M_cons {A B} (f : A -> M B) (a : A) (l : list A) :
  mapM f (a :: l) = (b ← f a; r ← mapM f l; mret (b :: r)).
Proof. reflexivity. Qed.

Lemma outcome_mapM_Ok {A B} (f : A -> M B) (l : list A) (r : list B) :
  outcome (mapM f l) = Ok r <-> Forall2 (fun a b => outcome (f a) = Ok b) l r.
Proof.
  revert r. induction l as [|a l IH]; intros r.
  - split.
    + intros Hr. injection Hr as <-. constructor.
    + intros Hr. by inversion Hr.
  - rewrite mapM_M_cons, outcome_bind. split.
    + destruct (outcome (f a)) as [b|e] eqn:Hb; [|done].
      rewrite outcome_bind.
      destruct (outcome (mapM f l)) as [r'|e] eqn:Hr; [|done].
      intros Hr'. injection Hr' as <-. constructor; [done|]. by apply IH.
    + intros Hr. inversion Hr as [|? b ? r' Hb Hr']; subst.
      rewrite Hb, outcome_bind. apply IH in Hr'. by rewrite Hr'.
Qed.

Lemma outcome_mapM_total {A B} (f : A -> M B) (l : list A) :
  Forall (fun a => exists b, outcome (f a) = Ok b) l ->
  exists r, outcome (mapM f l) = Ok r.
Proof.
  induction 1 as [|a l [b Hb] _ [r Hr]]; [by exists []|].
  exists (b :: r). rewrite mapM_M_cons, outcome_bind, Hb, outcome_bind, Hr. done.
Qed.

Lemma trace_mapM_elem {A B} (f : A -> M B) (l : list A) (e : event) :
  e ∈ trace (mapM f l) -> exists a, a ∈ l /\ e ∈ trace (f a).
Proof.
  induction l as [|a l IH]; [by intros ?%elem_of_nil|].
  rewrite mapM_M_cons, trace_bind.
  destruct (outcome (f a)) as [b|err].
  - rewrite elem_of_app, trace_bind.
    intros [He|He]; [exists a; split; [by left|done]|].
    assert (e ∈ trace (mapM f l)) as He'.
    { destruct (outcome (mapM f l)); [|done].
      rewrite trace_mret, app_nil_r in He. done. }
    destruct (IH He') as (a' & Ha' & Hin). exists a'. split; [by right|done].
  - intros He. exists a. split; [by left|done].
Qed.

(** ** [random.shuffle] *)

Lemma swap_perm (x : list string) (i j : nat) : swap x i j ≡ₚ x.
Proof.
  unfold swap.
  destruct (x !! i) as [a|] eqn:Hi; [|done].
  destruct (x !! j) as [b|] eqn:Hj; [|done].
  symmetry. apply Permutation_inj. split; [by rewrite !length_insert|].
  exists (fun k =>
            if decide (k = i) then j else if decide (k = j) then i else k).
  split.
  - intros k1 k2. repeat case_decide; intros; subst; congruence.
  - intros k. pose proof (lookup_lt_Some _ _ _ Hi).
    pose proof (lookup_lt_Some _ _ _ Hj).
    repeat case_decide; subst.
    + rewrite list_lookup_insert_eq by (by rewrite length_insert). done.
    + rewrite list_lookup_insert_ne, list_lookup_insert_eq by done. done.
    + by rewrite !list_lookup_insert_ne by done.
Qed.

Lemma shuffle_loop_perm (rand : nat -> Q) (i : nat) :
  forall k x, shuffle_loop rand k i x ≡ₚ x.
Proof.
  induction i as [|i IH]; intros k x; [done|].
  simpl. by rewrite IH, swap_perm.
Qed.

Lemma random_shuffle_perm (rand : nat -> Q) (x : list string) :
  random_shuffle rand x ≡ₚ x.
Proof. apply shuffle_loop_perm. Qed.

(** Python's own shuffle, drawing from [rand]; every escape sequence is
    rejected. *)
Definition py_random (rand : nat -> Q) : PyLib :=
  {| unicode_escape_utf8 := fun _ => None;
     shuffle := random_shuffle rand;
     shuffle_perm := random_shuffle_perm rand |}.

(** The draws 1/5, 2/5, 3/5, ... *)
Definition fifths (k : nat) : Q := (Z.of_nat k + 1) # 5.

(** ** [construct_data] *)

Section construct_facts.
Context `{PyLib}.
Variable fs : filesystem.
Variables dep_fnames non_dep_fnames : list string.
Variables dep_dir non_dep_dir : string.

Local Abbreviation path := (path_of dep_fnames dep_dir non_dep_dir).
Local Abbreviation label := (label_of dep_fnames).
Local Abbreviation step :=
  (construct_step fs dep_fnames dep_dir non_dep_dir).
Local Abbreviation load := (load_record fs dep_fnames dep_dir non_dep_dir).

Lemma construct_step_load (file_names : list string) (d : bunch)
    (index : nat) (fn : string) :
  file_names !! index = Some fn ->
  length (filepath d) = index ->
  step file_names d index =
  (post_text ← load fn;
   mret (Bunch (filenames d) (filepath d ++ [path fn])
           (data d ++ [post_text]) (target d ++ [label fn]))).
Proof.
  intros Hfn Hlen. unfold construct_step, load, path_of, label_of.
  rewrite (py_index_Some _ _ fn), bind_ret_l by done.
  destruct (bool_decide (fn ∈ dep_fnames)); simpl filepath.
  - rewrite (py_index_Some _ _ (os_path_join dep_dir fn)), bind_ret_l;
      [done|]. by rewrite lookup_app_r, Hlen, Nat.sub_diag by lia.
  - rewrite (py_index_Some _ _ (os_path_join non_dep_dir fn)), bind_ret_l;
      [done|]. by rewrite lookup_app_r, Hlen, Nat.sub_diag by lia.
Qed.

Lemma construct_loop (rest : list string) :
  forall (pre : list string) (d : bunch),
    length (filepath d) = length pre ->
    foldlM (step (pre ++ rest)) d (seq (length pre) (length rest)) =
    (texts ← mapM load rest;
     mret (Bunch (filenames d) (filepath d ++ (path <$> rest))
             (data d ++ texts) (target d ++ (label <$> rest)))).
Proof.
  induction rest as [|fn rest IH]; intros pre d Hlen.
  - simpl. rewrite !app_nil_r. by destruct d.
  - simpl seq. simpl foldlM.
    rewrite (construct_step_load _ _ _ fn); [|by apply list_lookup_middle|done].
    rewrite mapM_M_cons, !bind_assoc. apply bind_ext. intros text.
    rewrite bind_ret_l.
    replace (pre ++ fn :: rest) with ((pre ++ [fn]) ++ rest)
      by (by rewrite <- app_assoc).
    replace (S (length pre)) with (length (pre ++ [fn]))
      by (rewrite length_app; simpl; lia).
    rewrite IH by (simpl; rewrite !length_app; simpl; lia).
    rewrite bind_assoc. apply bind_ext. intros texts.
    rewrite bind_ret_l. simpl. by rewrite <- !app_assoc.
Qed.

(** The loop of [construct_data] loads the shuffled names one by one. *)
Lemma construct_data_load :
  construct_data fs dep_fnames non_dep_fnames dep_dir non_dep_dir =
  (let file_names := shuffle (dep_fnames ++ non_dep_fnames) in
   texts ← mapM load file_names;
   mret (Bunch file_names (path <$> file_names) texts
           (label <$> file_names))).
Proof.
  unfold construct_data.
  exact (construct_loop _ [] (Bunch _ [] [] []) eq_refl).
Qed.

Lemma construct_data_Ok (d : bunch) :
  outcome (construct_data fs dep_fnames non_dep_fnames dep_dir non_dep_dir)
  = Ok d ->
  filenames d = shuffle (dep_fnames ++ non_dep_fnames) /\
  filepath d = path <$> filenames d /\
  target d = label <$> filenames d /\
  Forall2 (fun fn text => outcome (load fn) = Ok text) (filenames d) (data d).
Proof.
  rewrite construct_data_load. simpl. rewrite outcome_bind.
  destruct (outcome (mapM load _)) as [texts|e] eqn:Hm; [|done].
  intros Hd. injection Hd as <-. simpl.
  by apply outcome_mapM_Ok in Hm.
Qed.

Lemma construct_data_total :
  (forall fn, fn ∈ dep_fnames ++ non_dep_fnames ->
              readable fs (path fn) = true) ->
  exists d,
    outcome (construct_data fs dep_fnames non_dep_fnames dep_dir non_dep_dir)
    = Ok d.
Proof.
  intros Hread. rewrite construct_data_load. simpl.
  destruct (outcome_mapM_total load (shuffle (dep_fnames ++ non_dep_fnames)))
    as [texts Ht].
  - apply Forall_forall. intros fn Hfn.
    apply process_post_readable, Hread. by rewrite <- (shuffle_perm _).
  - eexists. by rewrite outcome_bind, Ht.
Qed.

(** Every file opened is the file of some listed name. *)
Lemma construct_data_opens (e : event) :
  e ∈ trace (construct_data fs dep_fnames non_dep_fnames dep_dir non_dep_dir) ->
  exists fn, fn ∈ dep_fnames ++ non_dep_fnames /\ e = EvOpen (path fn).
Proof.
  rewrite construct_data_load. simpl. rewrite trace_bind.
  intros He.
  assert (e ∈ trace (mapM load (shuffle (dep_fnames ++ non_dep_fnames))))
    as He'.
  { destruct (outcome (mapM load _)); [|done].
    by rewrite trace_mret, app_nil_r in He. }
  apply trace_mapM_elem in He' as (fn & Hfn & Hin).
  exists fn. split; [by rewrite <- (shuffle_perm _)|].
  unfold load_record in Hin. rewrite trace_process_post in Hin.
  by apply list_elem_of_singleton in Hin.
Qed.

End construct_facts.

(** ** The text of a post *)

(** C3, as amended: when the file exists and its non-blank lines decode,
    [process_post] opens it and returns the decoded non-blank lines, each
    stripped, joined by single spaces and followed by one more space; it
    returns the empty string when no line is non-blank. *)
Theorem process_post_joined `{PyLib} (fs : filesystem)
    (file_path content : string) (texts : list string) :
  files fs !! file_path = Some content ->
  mapM decoded (nonblank_lines content) = Some texts ->
  process_post fs file_path =
  ([EvOpen file_path],
   Ok match texts with
      | [] => ""
      | _ => PyStr.join " " (PyStr.strip <$> texts) +:+ " "
      end).
Proof.
  intros Hf Hm. rewrite (process_post_decoded fs _ content texts) by done.
  by rewrite spaced_join.
Qed.

(** The first post of [fs_posts]: three lines, the second one blank. *)
Lemma process_post_joined_witness :
  files fs_posts !! "./mixed_depression/p1.txt"
  = Some (nl_after "sad" +:+ nl_after "" +:+ nl_after "  very sad ") /\
  @process_post Ref.py_keep fs_posts "./mixed_depression/p1.txt"
  = ([EvOpen "./mixed_depression/p1.txt"], Ok "sad very sad ").
Proof.
  split; [by vm_compute|].
  apply (@process_post_joined Ref.py_keep fs_posts _
           (nl_after "sad" +:+ nl_after "" +:+ nl_after "  very sad ")
           [nl_after "sad"; nl_after "  very sad "]);
    by vm_compute.
Defined.

(** C3, as stated, fails: the text of a file with two non-blank lines ends
    with a space, so it is not those lines joined by single spaces, whether
    the lines are taken stripped or as read. *)
Lemma process_post_trailing_space :
  let content := nl_after "sad" +:+ nl_after "" +:+ nl_after "  very sad " in
  files fs_posts !! "./mixed_depression/p1.txt" = Some content /\
  outcome (@process_post Ref.py_keep fs_posts "./mixed_depression/p1.txt")
  = Ok "sad very sad " /\
  PyStr.join " " (PyStr.strip <$> nonblank_lines content) = "sad very sad" /\
  outcome (@process_post Ref.py_keep fs_posts "./mixed_depression/p1.txt")
  ≠ Ok (PyStr.join " " (PyStr.strip <$> nonblank_lines content)) /\
  outcome (@process_post Ref.py_keep fs_posts "./mixed_depression/p1.txt")
  ≠ Ok (PyStr.join " " (nonblank_lines content)).
Proof. vm_compute. repeat split; congruence. Qed.

(** C10: a file whose lines are all blank, the empty file included, is read
    as the empty string, and [construct_data] keeps that empty text as the
    record of the file. *)
Theorem blank_post_kept `{PyLib} (fs : filesystem) (file_path content : string) :
  files fs !! file_path = Some content ->
  Forall (fun l => PyStr.strip l = "") (PyStr.readlines content) ->
  outcome (process_post fs file_path) = Ok "" /\
  forall dep_fnames non_dep_fnames dep_dir non_dep_dir d i,
    outcome (construct_data fs dep_fnames non_dep_fnames dep_dir non_dep_dir)
    = Ok d ->
    filepath d !! i = Some file_path ->
    data d !! i = Some "" /\ length (data d) = length (filepath d).
Proof.
  intros Hf Hblank.
  assert (nonblank_lines content = []) as Hnone.
  { unfold nonblank_lines. induction Hblank as [|l ls Hl _ IH]; [done|].
    rewrite filter_cons, IH. unfold nonblank. by rewrite Hl. }
  assert (outcome (process_post fs file_path) = Ok "") as Hpost.
  { rewrite (process_post_joined fs _ content []); [done|done|].
    by rewrite Hnone. }
  split; [done|].
  intros dep_fnames non_dep_fnames dep_dir non_dep_dir d i Hd Hp.
  apply construct_data_Ok in Hd as (_ & Hpath & _ & Hdata).
  rewrite Hpath in Hp |- *. rewrite length_fmap.
  split; [|symmetry; by eapply Forall2_length].
  apply list_lookup_fmap_Some in Hp as (fn & Heq & Hfn).
  destruct (Forall2_lookup_l _ _ _ _ _ Hdata Hfn) as (text & Ht & Hload).
  unfold load_record in Hload. rewrite <- Heq in Hload. congruence.
Qed.

(** The second post of [fs_posts] holds blank lines only. *)
Lemma blank_post_kept_witness :
  files fs_posts !! "./mixed_depression/p2.txt"
  = Some (nl_after "  " +:+ nl_after "") /\
  outcome (@process_post Ref.py_keep fs_posts "./mixed_depression/p2.txt")
  = Ok "" /\
  forall d,
    outcome (@construct_data Ref.py_keep fs_posts ["p1.txt"; "p2.txt"]
               ["q1.txt"] DEP NON_DEP) = Ok d ->
    data d !! 1%nat = Some "" /\ length (data d) = length (filepath d).
Proof.
  split; [by vm_compute|].
  destruct (@blank_post_kept Ref.py_keep fs_posts
              "./mixed_depression/p2.txt" (nl_after "  " +:+ nl_after ""))
    as [Hpost Hkept]; [by vm_compute|repeat constructor|].
  split; [exact Hpost|].
  intros d Hd. apply (Hkept _ _ _ _ d 1%nat Hd).
  vm_compute in Hd. injection Hd as <-. by vm_compute.
Defined.

(** ** Paths *)

Lemma no_slash_start (b : string) :
  no_slash b -> PyStr.startswith_slash b = false.
Proof.
  destruct b as [|c b]; [done|]. unfold no_slash. simpl.
  intros Hc. apply orb_false_iff in Hc as [Hc _].
  apply bool_decide_eq_false in Hc. apply bool_decide_eq_false. congruence.
Qed.

Lemma os_path_join_prefix (a b : string) :
  no_slash b -> os_path_join a b = dir_prefix a +:+ b.
Proof.
  intros Hb. unfold os_path_join, dir_prefix.
  rewrite (no_slash_start b Hb).
  destruct (bool_decide (a = "") || PyStr.endswith_slash a); [done|].
  by rewrite string_app_assoc.
Qed.

Lemma endswith_slash_cons (c : ascii) (s : string) :
  s ≠ "" -> PyStr.endswith_slash (String c s) = PyStr.endswith_slash s.
Proof. by destruct s. Qed.

Lemma endswith_slash_app (s : string) : PyStr.endswith_slash (s +:+ "/") = true.
Proof.
  induction s as [|c s IH]; [done|].
  rewrite string_app_cons, endswith_slash_cons; [done|]. by destruct s.
Qed.

Lemma dir_prefix_closed (a : string) :
  dir_prefix a = "" \/ PyStr.endswith_slash (dir_prefix a) = true.
Proof.
  unfold dir_prefix. destruct (bool_decide (a = "")) eqn:Ha; simpl.
  - left. by apply bool_decide_eq_true in Ha.
  - destruct (PyStr.endswith_slash a) eqn:He; [by right|].
    right. apply endswith_slash_app.
Qed.

Lemma endswith_slash_contains (p s : string) :
  PyStr.endswith_slash p = true -> PyStr.contains PyStr.slash (p +:+ s) = true.
Proof.
  induction p as [|c p IH]; [done|]. intros Hp.
  rewrite string_app_cons. simpl. apply orb_true_iff.
  destruct p as [|d p].
  - left. simpl in Hp. apply bool_decide_eq_true in Hp.
    apply bool_decide_eq_true. congruence.
  - right. apply IH. by rewrite endswith_slash_cons in Hp.
Qed.

(** A path splits in one way only into a directory part and a name. *)
Lemma prefix_name_inj (p : string) :
  forall q a b,
    p = "" \/ PyStr.endswith_slash p = true ->
    q = "" \/ PyStr.endswith_slash q = true ->
    no_slash a -> no_slash b ->
    p +:+ a = q +:+ b -> p = q /\ a = b.
Proof.
  induction p as [|c p IH]; intros q a b Hp Hq Ha Hb Heq.
  - destruct Hq as [->|Hq]; [done|].
    rewrite string_app_nil_l in Heq. subst a.
    unfold no_slash in Ha. by rewrite endswith_slash_contains in Ha.
  - destruct q as [|d q].
    + destruct Hp as [Hp|Hp]; [done|].
      rewrite string_app_nil_l in Heq. subst b.
      unfold no_slash in Hb. by rewrite endswith_slash_contains in Hb.
    + rewrite !string_app_cons in Heq. injection Heq as -> Heq.
      assert (p = "" \/ PyStr.endswith_slash p = true) as Hp'.
      { destruct p as [|c' p]; [by left|right].
        destruct Hp as [Hp|Hp]; [done|]. by rewrite endswith_slash_cons in Hp. }
      assert (q = "" \/ PyStr.endswith_slash q = true) as Hq'.
      { destruct q as [|d' q]; [by left|right].
        destruct Hq as [Hq|Hq]; [done|]. by rewrite endswith_slash_cons in Hq. }
      by destruct (IH q a b Hp' Hq' Ha Hb Heq) as [-> ->].
Qed.

Lemma os_path_join_inj (d1 d2 a b : string) :
  no_slash a -> no_slash b ->
  os_path_join d1 a = os_path_join d2 b ->
  a = b /\ os_path_join d1 b = os_path_join d2 b.
Proof.
  intros Ha Hb Heq. rewrite !os_path_join_prefix in Heq by done.
  destruct (prefix_name_inj (dir_prefix d1) (dir_prefix d2) a b
              (dir_prefix_closed d1) (dir_prefix_closed d2) Ha Hb Heq)
    as [Hd ->].
  split; [done|]. by rewrite !os_path_join_prefix, Hd by done.
Qed.

(** ** The data set *)

(** C6: when every file listed in either directory can be read,
    [construct_data] returns a data bunch in which the texts, the labels and
    the files listed in the two directories are as many, and every label is
    0 or 1. *)
Theorem construct_data_lengths `{PyLib} (fs : filesystem)
    (dep_fnames non_dep_fnames : list string) (dep_dir non_dep_dir : string) :
  Forall (fun fn => readable fs (os_path_join dep_dir fn) = true) dep_fnames ->
  Forall (fun fn => readable fs (os_path_join non_dep_dir fn) = true)
    non_dep_fnames ->
  exists d,
    outcome (construct_data fs dep_fnames non_dep_fnames dep_dir non_dep_dir)
    = Ok d /\
    length (data d) = length (target d) /\
    length (target d) = (length dep_fnames + length non_dep_fnames)%nat /\
    Forall (fun t => t = 0%Z \/ t = 1%Z) (target d).
Proof.
  intros Hdep Hnon.
  destruct (construct_data_total fs dep_fnames non_dep_fnames dep_dir
              non_dep_dir) as [d Hd].
  { intros fn Hfn. unfold path_of. case_bool_decide as Hin.
    - rewrite Forall_forall in Hdep. by apply Hdep.
    - apply elem_of_app in Hfn as [Hfn|Hfn]; [done|].
      rewrite Forall_forall in Hnon. by apply Hnon. }
  exists d. split; [done|].
  apply construct_data_Ok in Hd as (Hnames & _ & Htarget & Hdata).
  rewrite Htarget, length_fmap.
  split; [symmetry; by eapply Forall2_length|].
  split.
  - by rewrite Hnames, (shuffle_perm _), length_app.
  - apply Forall_fmap, Forall_true. intros fn. unfold label_of. simpl.
    case_bool_decide; auto.
Qed.

(** The three posts of [fs_posts], shuffled by Python's own loop. *)
Lemma construct_data_lengths_witness :
  exists d,
    outcome (@construct_data (py_random fifths) fs_posts ["p1.txt"; "p2.txt"]
               ["q1.txt"] DEP NON_DEP) = Ok d /\
    filenames d = ["p2.txt"; "q1.txt"; "p1.txt"] /\
    length (data d) = length (target d) /\
    length (target d) = 3%nat /\
    Forall (fun t => t = 0%Z \/ t = 1%Z) (target d).
Proof.
  destruct (@construct_data_lengths (py_random fifths) fs_posts
              ["p1.txt"; "p2.txt"] ["q1.txt"] DEP NON_DEP)
    as (d & Hd & Hrest); [repeat constructor..|].
  exists d. split; [done|]. split; [|done].
  vm_compute in Hd. by injection Hd as <-.
Defined.

Lemma label_of_dep (dep_fnames l : list string) :
  Forall (fun fn => fn ∈ dep_fnames) l ->
  count_label 0 (label_of dep_fnames <$> l) = length l.
Proof.
  unfold count_label. induction 1 as [|fn l Hfn _ IH]; [done|].
  assert (label_of dep_fnames fn = 0%Z) as Hl
    by (unfold label_of; by rewrite (bool_decide_eq_true_2 _ Hfn)).
  rewrite fmap_cons, filter_cons, Hl, decide_True by done.
  simpl. by rewrite IH.
Qed.

Lemma label_of_non_dep (dep_fnames l : list string) :
  Forall (fun fn => fn ∉ dep_fnames) l ->
  count_label 0 (label_of dep_fnames <$> l) = 0%nat.
Proof.
  unfold count_label. induction 1 as [|fn l Hfn _ IH]; [done|].
  assert (label_of dep_fnames fn = 1%Z) as Hl
    by (unfold label_of; by rewrite (bool_decide_eq_false_2 _ Hfn)).
  by rewrite fmap_cons, filter_cons, Hl, decide_False.
Qed.

(** X1: when no file name is listed in both directories, the labels 0 of
    the data bunch are as many as the files of the depression directory. *)
Lemma construct_data_balance `{PyLib} (fs : filesystem)
    (dep_fnames non_dep_fnames : list string) (dep_dir non_dep_dir : string)
    (d : bunch) :
  Forall (fun fn => fn ∉ dep_fnames) non_dep_fnames ->
  outcome (construct_data fs dep_fnames non_dep_fnames dep_dir non_dep_dir)
  = Ok d ->
  count_label 0 (target d) = length dep_fnames.
Proof.
  intros Hdisj Hd.
  apply construct_data_Ok in Hd as (Hnames & _ & Htarget & _).
  rewrite Htarget, Hnames. unfold count_label.
  rewrite (shuffle_perm _), fmap_app, filter_app, length_app.
  fold (count_label 0 (label_of dep_fnames <$> dep_fnames)).
  fold (count_label 0 (label_of dep_fnames <$> non_dep_fnames)).
  rewrite (label_of_non_dep dep_fnames non_dep_fnames Hdisj).
  rewrite (label_of_dep dep_fnames dep_fnames); [lia|]. by apply Forall_forall.
Qed.

(** The names of [fs_posts] differ from one directory to the other. *)
Lemma construct_data_balance_witness :
  exists d,
    outcome (@construct_data (py_random fifths) fs_posts ["p1.txt"; "p2.txt"]
               ["q1.txt"] DEP NON_DEP) = Ok d /\
    target d = [0%Z; 1%Z; 0%Z] /\
    count_label 0 (target d) = 2%nat.
Proof.
  eexists. split; [vm_compute; reflexivity|]. split; [done|].
  apply (@construct_data_balance (py_random fifths) fs_posts
           ["p1.txt"; "p2.txt"] ["q1.txt"] DEP NON_DEP).
  - constructor; [|constructor].
    apply (bool_decide_unpack _). by vm_compute.
  - by vm_compute.
Defined.

(** C1, at a failing input: with one post in each directory under the same
    file name, whatever the shuffle draws, both records get label 0 and the
    text of the depression copy, so two labels are 0 although one file is
    listed in the depression directory. *)
Theorem shared_name_two_labels_zero `{PyLib} :
  construct_data fs_shared ["post.txt"] ["post.txt"] DEP NON_DEP
  = ([EvOpen "./mixed_depression/post.txt";
      EvOpen "./mixed_depression/post.txt"],
     Ok (Bunch ["post.txt"; "post.txt"]
           ["./mixed_depression/post.txt"; "./mixed_depression/post.txt"]
           ["i feel hopeless "; "i feel hopeless "]
           [0%Z; 0%Z])).
Proof.
  unfold construct_data.
  assert (shuffle (["post.txt"] ++ ["post.txt"]) = ["post.txt"; "post.txt"])
    as ->.
  { symmetry. apply (replicate_Permutation 2 "post.txt").
    symmetry. apply shuffle_perm. }
  by vm_compute.
Qed.

(** C9: when a file name is listed in both directories, the data bunch
    holds it at two positions at least; at each of them the label is 0 and
    the path lies in the depression directory; and, the listed names holding
    no slash and the two directories giving the name different paths, the
    path of the name in the non-depression directory is never opened. *)
Theorem shared_name_reads_depression_copy `{PyLib} (fs : filesystem)
    (dep_fnames non_dep_fnames : list string) (dep_dir non_dep_dir : string)
    (fn : string) (d : bunch) :
  fn ∈ dep_fnames -> fn ∈ non_dep_fnames ->
  outcome (construct_data fs dep_fnames non_dep_fnames dep_dir non_dep_dir)
  = Ok d ->
  (exists i j, i ≠ j /\ filenames d !! i = Some fn /\
               filenames d !! j = Some fn) /\
  (forall i, filenames d !! i = Some fn ->
             target d !! i = Some 0%Z /\
             filepath d !! i = Some (os_path_join dep_dir fn)) /\
  (Forall no_slash (dep_fnames ++ non_dep_fnames) ->
   os_path_join dep_dir fn ≠ os_path_join non_dep_dir fn ->
   EvOpen (os_path_join non_dep_dir fn)
   ∉ trace (construct_data fs dep_fnames non_dep_fnames dep_dir non_dep_dir)).
Proof.
  intros Hdep Hnon Hd.
  apply construct_data_Ok in Hd as (Hnames & Hpath & Htarget & _).
  split; [|split].
  - apply list_elem_of_split in Hdep as (a1 & a2 & Ha).
    apply list_elem_of_split in Hnon as (b1 & b2 & Hb).
    pose proof (shuffle_perm (dep_fnames ++ non_dep_fnames)) as Hperm.
    symmetry in Hperm. apply Permutation_inj in Hperm as (_ & f & Hinj & Hf).
    exists (f (length a1)), (f (length (a1 ++ fn :: a2 ++ b1))).
    rewrite Hnames, <- !Hf. split; [|split].
    + intros Heq. apply Hinj in Heq. rewrite length_app in Heq. simpl in Heq. lia.
    + rewrite Ha, <- app_assoc. by apply list_lookup_middle.
    + rewrite Ha, Hb.
      replace ((a1 ++ fn :: a2) ++ b1 ++ fn :: b2)
        with ((a1 ++ fn :: a2 ++ b1) ++ fn :: b2)
        by (by rewrite <- !app_assoc; simpl; rewrite <- app_assoc).
      by apply list_lookup_middle.
  - intros i Hi. rewrite Htarget, Hpath, !list_lookup_fmap, Hi. simpl.
    unfold label_of, path_of. by rewrite (bool_decide_eq_true_2 _ Hdep).
  - intros Hnames' Hdirs Hopen.
    apply construct_data_opens in Hopen as (fn' & Hfn' & Heq).
    injection Heq as Heq.
    rewrite Forall_forall in Hnames'.
    assert (no_slash fn) as Hs by (apply Hnames', elem_of_app; by left).
    assert (no_slash fn') as Hs' by by apply Hnames'.
    unfold path_of in Heq. case_bool_decide as Hin.
    + symmetry in Heq.
      apply os_path_join_inj in Heq as [_ Heq]; [|done..]. done.
    + apply os_path_join_inj in Heq as [-> _]; done.
Qed.

(** The post of [fs_shared], whatever order the shuffle leaves. *)
Lemma shared_name_reads_depression_copy_witness :
  exists d,
    outcome (@construct_data Ref.py_reverse fs_shared ["post.txt"]
               ["post.txt"] DEP NON_DEP) = Ok d /\
    (exists i j, i ≠ j /\ filenames d !! i = Some "post.txt" /\
                 filenames d !! j = Some "post.txt") /\
    (forall i, filenames d !! i = Some "post.txt" ->
               target d !! i = Some 0%Z /\
               filepath d !! i = Some (os_path_join DEP "post.txt")) /\
    EvOpen (os_path_join NON_DEP "post.txt")
    ∉ trace (@construct_data Ref.py_reverse fs_shared ["post.txt"]
               ["post.txt"] DEP NON_DEP).
Proof.
  eexists. split; [by vm_compute|].
  destruct (@shared_name_reads_depression_copy Ref.py_reverse fs_shared
              ["post.txt"] ["post.txt"] DEP NON_DEP "post.txt" _
              ltac:(by left) ltac:(by left) ltac:(by vm_compute))
    as (Htwice & Hzero & Hunread).
  split; [exact Htwice|]. split; [exact Hzero|].
  apply Hunread; [repeat constructor|by vm_compute].
Defined.

(** ** Cross-validation *)

Section kfold_facts.
Context `{SkLearn}.

Lemma np_take_select {A} (l : list A) (indices : list nat) :
  np_take l indices =
  ([], match select l indices with
       | Some r => Ok r
       | None => Raise IndexError
       end).
Proof.
  unfold select. induction indices as [|i indices IH]; [done|].
  simpl. unfold py_index. destruct (l !! i) as [a|]; [|done].
  rewrite bind_ret_l, IH. simpl.
  by destruct (mapM _ indices).
Qed.

Lemma take_rows_select (x : matrix) (indices : list nat) :
  take_rows x indices =
  ([], match select (rows x) indices with
       | Some r => Ok (Matrix (n_cols x) r)
       | None => Raise IndexError
       end).
Proof.
  unfold take_rows. rewrite np_take_select.
  by destruct (select (rows x) indices).
Qed.

Lemma train_lr_model_fit (x_train : matrix) (y_train : list Z) :
  train_lr_model x_train y_train =
  ([EvFit (LrConfig "l1" (Some "balanced")) x_train y_train],
   lr_fit (LrConfig "l1" (Some "balanced")) x_train y_train).
Proof.
  unfold train_lr_model. rewrite bind_emit. done.
Qed.

Lemma trace_evaluate (m : model) (x_test : matrix) (y_test : list Z) :
  trace (evaluate m x_test y_test) = [].
Proof.
  unfold evaluate. rewrite trace_bind. simpl.
  destruct (roc_auc_score _ _); [|done].
  by destruct (prf_evaluator _ _ _) as [[[? ?] ?] ?].
Qed.

Lemma classify_fold_run (x : matrix) (y : list Z) (a : kfold_acc)
    (it : nat * (list nat * list nat)) :
  classify_fold x y a it =
  (fold_ev ← fold_run x y it;
   mret (KfoldAcc (acc_precision a ++ [FoldEv.precision fold_ev])
           (acc_recall a ++ [FoldEv.recall fold_ev])
           (acc_fscore a ++ [FoldEv.fscore fold_ev])
           (cv_mean a ++ [FoldEv.cv fold_ev])
           (roc_mean a ++ [FoldEv.roc fold_ev]))).
Proof.
  destruct it as [indx [train_indices test_indices]].
  unfold classify_fold, fold_run.
  repeat (rewrite ?bind_assoc; apply bind_ext; intro). done.
Qed.

Lemma classify_loop (x : matrix) (y : list Z)
    (its : list (nat * (list nat * list nat))) :
  forall a,
    foldlM (classify_fold x y) a its =
    (evs ← mapM (fold_run x y) its;
     mret (KfoldAcc (acc_precision a ++ (FoldEv.precision <$> evs))
             (acc_recall a ++ (FoldEv.recall <$> evs))
             (acc_fscore a ++ (FoldEv.fscore <$> evs))
             (cv_mean a ++ (FoldEv.cv <$> evs))
             (roc_mean a ++ (FoldEv.roc <$> evs)))).
Proof.
  induction its as [|it its IH]; intros a.
  - simpl. rewrite !app_nil_r. by destruct a.
  - simpl foldlM. rewrite classify_fold_run, mapM_M_cons, !bind_assoc.
    apply bind_ext. intros ev. rewrite bind_ret_l, IH, bind_assoc.
    apply bind_ext. intros evs. rewrite bind_ret_l. simpl.
    by rewrite <- !app_assoc.
Qed.

(** [classify_kfold] runs the folds one after the other and keeps the
    scores of each. *)
Lemma classify_kfold_runs (x : matrix) (y : list Z) :
  classify_kfold x y =
  (folds ← lift (skf_split KFOLD_SPLITS true x y);
   evs ← mapM (fold_run x y) (enumerate folds);
   mret (Evaluation.Make (FoldEv.precision <$> evs) (FoldEv.recall <$> evs)
           (FoldEv.fscore <$> evs) (np_mean (FoldEv.cv <$> evs))
           (np_mean (FoldEv.roc <$> evs)))).
Proof.
  unfold classify_kfold. apply bind_ext. intros folds.
  rewrite classify_loop, bind_assoc. apply bind_ext. intros evs.
  by rewrite bind_ret_l.
Qed.

End kfold_facts.

Lemma bind_pure_Ok {A B} (a : A) (k : A -> M B) :
  ((([], Ok a) : M A) ≫= k) = k a.
Proof. apply bind_ret_l. Qed.

Lemma bind_pure_Raise {A B} (e : exn) (k : A -> M B) :
  ((([], Raise e) : M A) ≫= k) = ([], Raise e).
Proof. done. Qed.

Lemma fits_app (t1 t2 : list event) : fits (t1 ++ t2) = fits t1 ++ fits t2.
Proof. apply filter_app. Qed.

Section fold_facts.
Context `{SkLearn}.

Lemma fold_run_unfold (x : matrix) (y : list Z) (indx : nat)
    (train_indices test_indices : list nat) :
  fold_run x y (indx, (train_indices, test_indices)) =
  let line := EvPrint [VStr ("Training on fold " +:+ pretty (indx + 1)%nat
                             +:+ "/10...")] in
  match select (rows x) train_indices, select (rows x) test_indices,
        select y train_indices, select y test_indices with
  | Some x_train, Some x_test, Some y_train, Some y_test =>
      let cfg := LrConfig "l1" (Some "balanced") in
      ([line; EvFit cfg (Matrix (n_cols x) x_train) y_train],
       match lr_fit cfg (Matrix (n_cols x) x_train) y_train with
       | Ok m => outcome (evaluate m (Matrix (n_cols x) x_test) y_test)
       | Raise e => Raise e
       end)
  | _, _, _, _ => ([line], Raise IndexError)
  end.
Proof.
  unfold fold_run, print. rewrite bind_emit.
  match goal with |- (_ :: trace ?b, outcome ?b) = _ => set (body := b) end.
  assert (body =
          match select (rows x) train_indices, select (rows x) test_indices,
                select y train_indices, select y test_indices with
          | Some x_train, Some x_test, Some y_train, Some y_test =>
              let cfg := LrConfig "l1" (Some "balanced") in
              ([EvFit cfg (Matrix (n_cols x) x_train) y_train],
               match lr_fit cfg (Matrix (n_cols x) x_train) y_train with
               | Ok m => outcome (evaluate m (Matrix (n_cols x) x_test) y_test)
               | Raise e => Raise e
               end)
          | _, _, _, _ => ([], Raise IndexError)
          end) as ->.
  { subst body.
    rewrite (take_rows_select x train_indices).
    destruct (select (rows x) train_indices) as [x_train|]; cbv iota;
      [rewrite bind_pure_Ok|by rewrite bind_pure_Raise].
    rewrite (take_rows_select x test_indices).
    destruct (select (rows x) test_indices) as [x_test|]; cbv iota;
      [rewrite bind_pure_Ok|by rewrite bind_pure_Raise].
    rewrite (np_take_select y train_indices).
    destruct (select y train_indices) as [y_train|]; cbv iota;
      [rewrite bind_pure_Ok|by rewrite bind_pure_Raise].
    rewrite (np_take_select y test_indices).
    destruct (select y test_indices) as [y_test|]; cbv iota;
      [rewrite bind_pure_Ok|by rewrite bind_pure_Raise].
    rewrite train_lr_model_fit, bind_unfold. simpl.
    destruct (lr_fit _ _ _) as [m|e]; [|done].
    by rewrite trace_evaluate. }
  destruct (select (rows x) train_indices) as [x_train|]; [|done].
  destruct (select (rows x) test_indices) as [x_test|]; [|done].
  destruct (select y train_indices) as [y_train|]; [|done].
  by destruct (select y test_indices) as [y_test|].
Qed.

(** A fold that is evaluated has called [fit] once, on its training
    subset. *)
Lemma fold_run_Ok_fits (x : matrix) (y : list Z)
    (it : nat * (list nat * list nat)) (ev : FoldEv.t) :
  outcome (fold_run x y it) = Ok ev ->
  exists e, fold_fit x y it.2 = Some e /\ fits (trace (fold_run x y it)) = [e].
Proof.
  destruct it as [indx [train_indices test_indices]].
  rewrite fold_run_unfold. unfold fold_fit. simpl.
  destruct (select (rows x) train_indices) as [x_train|]; [|done].
  destruct (select (rows x) test_indices) as [x_test|]; [|done].
  destruct (select y train_indices) as [y_train|]; [|done].
  destruct (select y test_indices) as [y_test|]; [|done].
  intros _. eexists. by split.
Qed.

(** Whatever happens to a fold, it calls [fit] at most once, with the L1
    penalty and balanced class weights, on its training subset. *)
Lemma fold_run_fits (x : matrix) (y : list Z)
    (it : nat * (list nat * list nat)) :
  fits (trace (fold_run x y it)) = [] \/
  exists e, fold_fit x y it.2 = Some e /\ fits (trace (fold_run x y it)) = [e].
Proof.
  destruct it as [indx [train_indices test_indices]].
  rewrite fold_run_unfold. unfold fold_fit. simpl.
  destruct (select (rows x) train_indices) as [x_train|]; [|by left].
  destruct (select (rows x) test_indices) as [x_test|]; [|by left].
  destruct (select y train_indices) as [y_train|]; [|by left].
  destruct (select y test_indices) as [y_test|]; [|by left].
  right. eexists. by split.
Qed.

Lemma fits_mapM_fold_run (x : matrix) (y : list Z)
    (its : list (nat * (list nat * list nat))) :
  forall evs,
    outcome (mapM (fold_run x y) its) = Ok evs ->
    Forall2 (fun it e => fold_fit x y it.2 = Some e) its
      (fits (trace (mapM (fold_run x y) its))).
Proof.
  induction its as [|it its IH]; intros evs; [constructor|].
  rewrite mapM_M_cons, outcome_bind, trace_bind.
  destruct (outcome (fold_run x y it)) as [ev|e] eqn:Hev; [|done].
  rewrite outcome_bind, trace_bind.
  destruct (outcome (mapM (fold_run x y) its)) as [evs'|e] eqn:Hevs; [|done].
  intros _. rewrite trace_mret, app_nil_r, fits_app.
  destruct (fold_run_Ok_fits x y it ev Hev) as (e & He & ->).
  constructor; [done|]. by apply (IH evs').
Qed.

Lemma enumerate_snd {A} (l : list A) : (enumerate l).*2 = l.
Proof. unfold enumerate. apply snd_zip. by rewrite length_seq. Qed.

End fold_facts.

(** ** The reference instances obey the contracts *)

Lemma ref_count_shape (cfg : vec_config) (docs : list string) (m : matrix) :
  Ref.counts cfg docs = Ok m ->
  shape m = (length docs, length (Ref.vocabulary cfg docs)).
Proof.
  unfold Ref.counts. case_bool_decide; [|done].
  destruct (Ref.vocabulary cfg docs) as [|t v] eqn:Hv; [done|].
  intros Hm. injection Hm as <-. unfold shape. simpl.
  by rewrite length_fmap.
Qed.

Lemma ref_tfidf_shape (cfg : vec_config) (docs : list string) (m : matrix) :
  Ref.tfidf cfg docs = Ok m ->
  shape m = (length docs, length (Ref.vocabulary cfg docs)).
Proof.
  unfold Ref.tfidf. destruct (Ref.counts cfg docs) as [mc|e] eqn:Hc; [|done].
  intros Hm. injection Hm as <-.
  rewrite <- (ref_count_shape cfg docs mc Hc). unfold shape. simpl.
  by rewrite length_fmap.
Qed.

Lemma ref_vectorizer_laws : @VectorizerLaws Ref.sklearn.
Proof.
  split. exists (fun cfg docs => length (Ref.vocabulary cfg docs)).
  split; [exact ref_count_shape | exact ref_tfidf_shape].
Qed.

Lemma ref_split_length (n : nat) (shuffled : bool) (x : matrix) (y : list Z)
    (folds : list (list nat * list nat)) :
  Ref.split n shuffled x y = Ok folds -> length folds = n.
Proof.
  unfold Ref.split. destruct (_ <? _)%nat; [done|].
  destruct (forallb _ _); [done|].
  intros Hf. injection Hf as <-. by rewrite length_fmap, length_seq.
Qed.

Lemma ref_fit_two_classes (cfg : lr_config) (x : matrix) (y : list Z)
    (m : Ref.centroid) :
  Ref.fit cfg x y = Ok m -> exists a b, a ∈ y /\ b ∈ y /\ a ≠ b.
Proof.
  unfold Ref.fit, Ref.classes.
  destruct (_ <? 2)%nat eqn:Hlen; [done|]. intros _.
  apply Nat.ltb_ge in Hlen.
  pose proof (NoDup_remove_dups y) as Hnd.
  destruct (remove_dups y) as [|a [|b l]] eqn:Hy; simpl in Hlen; [lia|lia|].
  exists a, b. split; [|split].
  - apply elem_of_remove_dups. rewrite Hy. by left.
  - apply elem_of_remove_dups. rewrite Hy. right. by left.
  - apply NoDup_cons in Hnd as [Ha _]. intros ->. apply Ha. by left.
Qed.

Lemma ref_trainer_laws : @TrainerLaws Ref.sklearn.
Proof.
  split.
  - exact ref_split_length.
  - exact ref_fit_two_classes.
Qed.

(** ** Claims on the pipeline *)

(** C4: when both vectorizers return a matrix for a corpus, the count
    matrix and the TF-IDF matrix have the same shape, the script building
    both with n-grams from 1 to [NGRAM_MAX] and the analyzer [ANALYZER]. *)
Theorem vectors_same_shape `{SkLearn} `{!VectorizerLaws}
    (raw_data : list string) (x_counts x_tfidf : matrix) :
  outcome (make_count_vectors raw_data) = Ok x_counts ->
  outcome (make_tfidf_vectors raw_data) = Ok x_tfidf ->
  shape x_counts = shape x_tfidf.
Proof.
  unfold make_count_vectors, make_tfidf_vectors.
  rewrite !outcome_bind. simpl.
  destruct (count_fit_transform _ raw_data) as [mc|e] eqn:Hc; [|done].
  destruct (tfidf_fit_transform _ raw_data) as [mt|e] eqn:Ht; [|done].
  simpl. intros Hx Hy. injection Hx as <-. injection Hy as <-.
  destruct shape_by_vocabulary as (size & Hcount & Htfidf).
  by rewrite (Hcount _ _ _ Hc), (Htfidf _ _ _ Ht).
Qed.

(** A corpus of two texts under the reference vectorizers. *)
Lemma vectors_same_shape_witness :
  exists x_counts x_tfidf,
    outcome (@make_count_vectors Ref.sklearn ["sad very sad"; "fine day"])
    = Ok x_counts /\
    outcome (@make_tfidf_vectors Ref.sklearn ["sad very sad"; "fine day"])
    = Ok x_tfidf /\
    shape x_counts = (2, 8)%nat /\ shape x_counts = shape x_tfidf.
Proof.
  eexists _, _. split; [vm_compute; reflexivity|].
  split; [vm_compute; reflexivity|].
  split; [by vm_compute|].
  apply (@vectors_same_shape Ref.sklearn ref_vectorizer_laws
           ["sad very sad"; "fine day"]); by vm_compute.
Defined.



(** X2: every call of [fit] in a run of [classify_kfold], whether the run
    completes or not, has the L1 penalty and balanced class weights. *)
Lemma classify_kfold_fit_config `{SkLearn} (x : matrix) (y : list Z) :
  Forall (fun ev => exists x_train y_train,
            ev = EvFit (LrConfig "l1" (Some "balanced")) x_train y_train)
    (fits (trace (classify_kfold x y))).
Proof.
  apply Forall_forall. intros ev Hev.
  unfold fits in Hev. apply list_elem_of_filter in Hev as [Hfit Hev].
  rewrite classify_kfold_runs, trace_bind in Hev. simpl in Hev.
  destruct (skf_split _ _ _ _) as [folds|e]; [|by apply elem_of_nil in Hev].
  simpl in Hev. rewrite trace_bind in Hev.
  assert (ev ∈ trace (mapM (fold_run x y) (enumerate folds))) as Hev'.
  { destruct (outcome (mapM _ _)); [|done].
    by rewrite trace_mret, app_nil_r in Hev. }
  apply trace_mapM_elem in Hev' as (it & _ & Hin).
  assert (ev ∈ fits (trace (fold_run x y it))) as Hin'
    by (by apply list_elem_of_filter).
  destruct (fold_run_fits x y it) as [Hnone|(e & He & Hone)].
  - rewrite Hnone in Hin'. by apply elem_of_nil in Hin'.
  - rewrite Hone in Hin'. apply list_elem_of_singleton in Hin' as ->.
    unfold fold_fit in He.
    destruct (select (rows x) it.2.1) as [x_train|]; [|done].
    destruct (select y it.2.1) as [y_train|]; [|done].
    injection He as <-. eauto.
Qed.

(** C7: in a run of [classify_kfold] that completes, the calls of [fit]
    are, fold after fold, one call on the training rows and training labels
    of the fold, with the L1 penalty and balanced class weights. *)
Theorem folds_fit_l1_balanced `{SkLearn} (x : matrix) (y : list Z)
    (folds : list (list nat * list nat)) (e : Evaluation.t) :
  skf_split KFOLD_SPLITS true x y = Ok folds ->
  outcome (classify_kfold x y) = Ok e ->
  Forall2 (fun fold ev => fold_fit x y fold = Some ev) folds
    (fits (trace (classify_kfold x y))).
Proof.
  intros Hsplit. rewrite classify_kfold_runs, outcome_bind, trace_bind.
  simpl. rewrite Hsplit. simpl. rewrite outcome_bind, trace_bind.
  destruct (outcome (mapM _ _)) as [evs|err] eqn:Hevs; [|done].
  intros _. rewrite trace_mret, app_nil_r.
  apply fits_mapM_fold_run in Hevs.
  rewrite <- (enumerate_snd folds) at 1.
  by apply Forall2_fmap_l.
Qed.

(** The same run: ten folds, ten calls of [fit]. *)
Lemma folds_fit_l1_balanced_witness :
  exists folds e,
    skf_split (SkLearn := Ref.sklearn) KFOLD_SPLITS true x20 y20 = Ok folds /\
    outcome (@classify_kfold Ref.sklearn x20 y20) = Ok e /\
    Forall2 (fun fold ev => fold_fit x20 y20 fold = Some ev) folds
      (fits (trace (@classify_kfold Ref.sklearn x20 y20))).
Proof.
  eexists _, _. split; [vm_compute; reflexivity|].
  split; [vm_compute; reflexivity|].
  eapply (@folds_fit_l1_balanced Ref.sklearn x20 y20);
    vm_compute; reflexivity.
Defined.

(** ** A label vector with one class *)

Lemma fits_nil (t : list event) :
  (forall e, e ∈ t -> is_fit e = false) -> fits t = [].
Proof.
  induction t as [|e t IH]; intros Hall; [done|].
  unfold fits. rewrite filter_cons, decide_False.
  - apply IH. intros e' He'. apply Hall. by right.
  - rewrite (Hall e) by (by left). done.
Qed.

Lemma quiet_bind {A B} (m : M A) (k : A -> M B) :
  quiet m -> (forall a, outcome m = Ok a -> quiet (k a)) -> quiet (m ≫= k).
Proof.
  unfold quiet. intros Hm Hk. rewrite trace_bind.
  destruct (outcome m) as [a|e]; [|done].
  by rewrite fits_app, Hm, (Hk a).
Qed.

Lemma fails_within_bind {A B} (n : nat) (m : M A) (k : A -> M B) :
  quiet m -> (forall a, outcome m = Ok a -> fails_within n (k a)) ->
  fails_within n (m ≫= k).
Proof.
  unfold quiet, fails_within. intros Hm Hk.
  rewrite outcome_bind, trace_bind.
  destruct (outcome m) as [a|e].
  - rewrite fits_app, Hm. by apply Hk.
  - rewrite Hm. split; [eauto|simpl; lia].
Qed.

Lemma fails_within_first {A B} (n : nat) (m : M A) (k : A -> M B) :
  fails_within n m -> fails_within n (m ≫= k).
Proof.
  unfold fails_within. intros [[e He] Hn].
  rewrite outcome_bind, trace_bind, He. eauto.
Qed.

Lemma quiet_print (args : list value) : quiet (print args).
Proof. done. Qed.

Lemma quiet_lift {A} (r : result A) : quiet (lift r).
Proof. done. Qed.

Lemma quiet_os_listdir (fs : filesystem) (path : string) :
  quiet (os_listdir fs path).
Proof. unfold os_listdir. rewrite bind_emit. by destruct (dirs fs !! path). Qed.

Lemma os_listdir_Ok (fs : filesystem) (path : string) (names : list string) :
  dirs fs !! path = Some names ->
  forall l, outcome (os_listdir fs path) = Ok l -> l = names.
Proof.
  intros Hd l. unfold os_listdir. rewrite bind_emit, Hd. simpl. congruence.
Qed.

Lemma quiet_construct_data `{PyLib} (fs : filesystem)
    (dep_fnames non_dep_fnames : list string) (dep_dir non_dep_dir : string) :
  quiet (construct_data fs dep_fnames non_dep_fnames dep_dir non_dep_dir).
Proof.
  apply fits_nil. intros e He.
  by apply construct_data_opens in He as (fn & _ & ->).
Qed.

Lemma quiet_make_count_vectors `{SkLearn} (raw_data : list string) :
  quiet (make_count_vectors raw_data).
Proof.
  unfold make_count_vectors. apply quiet_bind; [apply quiet_lift|].
  intros m _. apply quiet_bind; [apply quiet_print|done].
Qed.

Lemma select_elem {A} (l : list A) (indices : list nat) (r : list A) (a : A) :
  select l indices = Some r -> a ∈ r -> a ∈ l.
Proof.
  unfold select. intros Hr Ha. apply mapM_Some in Hr.
  apply list_elem_of_lookup in Ha as [j Hj].
  destruct (Forall2_lookup_r _ _ _ _ _ Hr Hj) as (i & _ & Hi).
  by eapply list_elem_of_lookup_2.
Qed.

(** When the splitter rejects the labels, its exception leaves
    [classify_kfold] at once: nothing is printed and nothing trained. *)
Lemma classify_kfold_split_raise `{SkLearn} (x : matrix) (y : list Z)
    (e : exn) :
  skf_split KFOLD_SPLITS true x y = Raise e ->
  classify_kfold x y = ([], Raise e).
Proof. unfold classify_kfold, lift. by intros ->. Qed.

Section single_class.
Context `{SkLearn} `{!TrainerLaws}.

(** On labels of one class the first fold ends in an exception, after one
    call of [fit] at most. *)
Lemma fold_run_single_class (x : matrix) (y : list Z)
    (it : nat * (list nat * list nat)) :
  (forall t, t ∈ y -> t = 1%Z) -> fails_within 1 (fold_run x y it).
Proof.
  intros Hy. destruct it as [indx [train_indices test_indices]].
  rewrite fold_run_unfold. unfold fails_within. cbv zeta.
  destruct (select (rows x) train_indices) as [x_train|];
    [|split; [eauto|simpl; lia]].
  destruct (select (rows x) test_indices) as [x_test|];
    [|split; [eauto|simpl; lia]].
  destruct (select y train_indices) as [y_train|] eqn:Hy_train;
    [|split; [eauto|simpl; lia]].
  destruct (select y test_indices) as [y_test|];
    [|split; [eauto|simpl; lia]].
  split; [|simpl; lia].
  unfold outcome. simpl.
  destruct (lr_fit _ _ y_train) as [m|e] eqn:Hfit; [|eauto].
  apply fit_two_classes in Hfit as (a & b & Ha & Hb & Hab).
  apply (select_elem _ _ _ _ Hy_train), Hy in Ha.
  apply (select_elem _ _ _ _ Hy_train), Hy in Hb. congruence.
Qed.

Lemma classify_kfold_single_class (x : matrix) (y : list Z) :
  (forall t, t ∈ y -> t = 1%Z) -> fails_within 1 (classify_kfold x y).
Proof.
  intros Hy. rewrite classify_kfold_runs.
  apply fails_within_bind; [apply quiet_lift|].
  intros folds Hfolds. simpl in Hfolds.
  apply split_length in Hfolds.
  destruct folds as [|fold folds]; [done|].
  apply fails_within_first.
  change (enumerate (fold :: folds))
    with ((0%nat, fold) :: zip (seq 1 (length folds)) folds).
  rewrite mapM_M_cons. apply fails_within_first.
  by apply fold_run_single_class.
Qed.

End single_class.

(** C2, as amended: when the depression directory is empty, the run ends
    in an exception that nothing catches, raised no later than in the first
    call of [fit]: at most one call of [fit] is made, and no evaluation is
    returned. *)
Theorem single_class_run_fails `{PyLib} `{SkLearn} `{!TrainerLaws}
    (fs : filesystem) (names : list string) :
  dirs fs !! DEP = Some [] ->
  dirs fs !! NON_DEP = Some names ->
  (exists e, outcome (main fs) = Raise e) /\
  (length (fits (trace (main fs))) <= 1)%nat.
Proof.
  intros Hdep Hnon. change (fails_within 1 (main fs)). unfold main.
  apply fails_within_bind; [apply quiet_print|]. intros _ _.
  apply fails_within_bind; [apply quiet_os_listdir|].
  intros dep_fnames ->%(os_listdir_Ok _ _ _ Hdep).
  apply fails_within_bind; [apply quiet_os_listdir|].
  intros non_dep_fnames _.
  apply fails_within_bind; [apply quiet_print|]. intros _ _.
  apply fails_within_bind; [apply quiet_print|]. intros _ _.
  apply fails_within_bind; [apply quiet_construct_data|].
  intros d Hd.
  apply fails_within_bind; [apply quiet_print|]. intros _ _.
  apply fails_within_bind; [apply quiet_print|]. intros _ _.
  apply fails_within_bind; [apply quiet_print|]. intros _ _.
  apply fails_within_bind; [apply quiet_print|]. intros _ _.
  apply fails_within_bind; [apply quiet_print|]. intros _ _.
  apply fails_within_bind; [apply quiet_print|]. intros _ _.
  apply fails_within_bind; [apply quiet_make_count_vectors|].
  intros X_counts _.
  apply fails_within_first, classify_kfold_single_class.
  apply construct_data_Ok in Hd as (_ & _ & -> & _).
  intros t (fn & -> & _)%list_elem_of_fmap.
  unfold label_of. rewrite bool_decide_eq_false_2; [done|].
  apply not_elem_of_nil.
Qed.

(** The script on [fs_single], under the reference instances. *)
Lemma single_class_run_fails_witness :
  dirs fs_single !! DEP = Some [] /\
  (exists e, outcome (@main Ref.py_keep Ref.sklearn fs_single) = Raise e) /\
  (length (fits (trace (@main Ref.py_keep Ref.sklearn fs_single))) <= 1)%nat.
Proof.
  split; [by vm_compute|].
  apply (@single_class_run_fails Ref.py_keep Ref.sklearn ref_trainer_laws
           fs_single single_names); by vm_compute.
Defined.

(** C2, as stated, fails: with ten posts in the non-depression directory
    and none in the other, a splitter that accepts a class with as many
    members as folds lets the first fold be trained, and the exception of
    the run is the one [fit] raises. *)
Lemma single_class_run_trains :
  dirs fs_single !! DEP = Some [] /\
  dirs fs_single !! NON_DEP = Some single_names /\
  outcome (@main Ref.py_keep Ref.sklearn fs_single)
  = Raise (ValueError "needs samples of at least 2 classes") /\
  length (fits (trace (@main Ref.py_keep Ref.sklearn fs_single))) = 1%nat.
Proof. by vm_compute. Qed.

(** * Further properties *)

(** ** Bytes of a string *)

Lemma all_chars_app (P : ascii -> bool) (a b : string) :
  all_chars P (a +:+ b) = all_chars P a && all_chars P b.
Proof.
  induction a as [|c a IH]; [done|].
  rewrite string_app_cons. simpl. by rewrite IH, andb_assoc.
Qed.

Lemma all_chars_weaken (P Q : ascii -> bool) (s : string) :
  (forall c, P c = true -> Q c = true) ->
  all_chars P s = true -> all_chars Q s = true.
Proof.
  intros HPQ. induction s as [|c s IH]; [done|]. simpl.
  intros [Hc Hs]%andb_true_iff. by rewrite (HPQ c Hc), IH.
Qed.

Lemma all_chars_contains (c : ascii) (s : string) :
  all_chars (is_not c) s = true -> PyStr.contains c s = false.
Proof.
  induction s as [|d s IH]; [done|]. simpl.
  intros [Hd Hs]%andb_true_iff. unfold is_not in Hd.
  apply negb_true_iff in Hd. by rewrite Hd, IH.
Qed.

Lemma all_chars_rev_app (P : ascii -> bool) (s : string) :
  forall acc,
    all_chars P (String.rev_app s acc) = all_chars P s && all_chars P acc.
Proof.
  induction s as [|c s IH]; intros acc; [done|].
  simpl. rewrite IH. simpl. by rewrite andb_assoc, (andb_comm (P c)).
Qed.

Lemma all_chars_lstrip (P : ascii -> bool) (s : string) :
  all_chars P s = true -> all_chars P (PyStr.lstrip s) = true.
Proof.
  induction s as [|c s IH]; [done|]. simpl.
  intros [Hc Hs]%andb_true_iff.
  destruct (PyStr.isspace c); [by apply IH|]. simpl. by rewrite Hc, Hs.
Qed.

Lemma all_chars_strip (P : ascii -> bool) (s : string) :
  all_chars P s = true -> all_chars P (PyStr.strip s) = true.
Proof.
  intros Hs. unfold PyStr.strip, PyStr.rstrip, String.rev.
  rewrite all_chars_rev_app, andb_true_r.
  apply all_chars_lstrip. rewrite all_chars_rev_app, andb_true_r.
  by apply all_chars_lstrip.
Qed.

(** The lines of a file hold the bytes of the file. *)
Lemma all_chars_readlines (P : ascii -> bool) (s : string) :
  all_chars P s = true ->
  Forall (fun l => all_chars P l = true) (PyStr.readlines s).
Proof.
  induction s as [|c s IH]; [constructor|]. simpl.
  intros [Hc Hs]%andb_true_iff. specialize (IH Hs).
  destruct (decide (c = PyStr.newline)).
  - constructor; [|done]. simpl. by rewrite Hc.
  - destruct (PyStr.readlines s) as [|l ls].
    + constructor; [|done]. simpl. by rewrite Hc.
    + inversion IH as [|? ? Hl Hls]; subst.
      constructor; [|done]. simpl. by rewrite Hc, Hl.
Qed.

(** ** Stripping and re-encoding a line *)

Lemma rev_app_app (s t : string) :
  forall acc,
    String.rev_app (s +:+ t) acc = String.rev_app t (String.rev_app s acc).
Proof.
  induction s as [|c s IH]; intros acc; [done|].
  rewrite string_app_cons. simpl. by rewrite IH.
Qed.

Lemma lstrip_app (b t : string) :
  PyStr.lstrip (b +:+ t) =
  match PyStr.lstrip b with
  | EmptyString => PyStr.lstrip t
  | r => r +:+ t
  end.
Proof.
  induction b as [|c b IH]; [done|].
  rewrite string_app_cons. simpl.
  destruct (PyStr.isspace c); [exact IH|done].
Qed.

Lemma rstrip_newline (s : string) :
  PyStr.rstrip (nl_after s) = PyStr.rstrip s.
Proof.
  unfold PyStr.rstrip, String.rev, nl_after. by rewrite rev_app_app.
Qed.

(** The newline that ends a line does not survive [strip]. *)
Lemma strip_newline (s : string) : PyStr.strip (nl_after s) = PyStr.strip s.
Proof.
  unfold PyStr.strip. unfold nl_after at 1. rewrite lstrip_app.
  destruct (PyStr.lstrip s) as [|c r] eqn:Hs; [done|].
  apply (rstrip_newline (String c r)).
Qed.

Lemma latin1_to_utf8_app (a b : string) :
  PyStr.latin1_to_utf8 (a +:+ b)
  = PyStr.latin1_to_utf8 a +:+ PyStr.latin1_to_utf8 b.
Proof.
  induction a as [|c a IH]; [done|].
  rewrite string_app_cons. simpl.
  destruct (_ <? 128)%nat; rewrite IH; by rewrite ?string_app_cons.
Qed.

Lemma latin1_to_utf8_byte (c : ascii) :
  c ≠ PyStr.newline ->
  no_newline (PyStr.latin1_to_utf8 (String c EmptyString)).
Proof.
  destruct c as [[] [] [] [] [] [] [] []]; intros Hc;
    first [by vm_compute | by destruct Hc].
Qed.

Lemma latin1_to_utf8_no_newline (s : string) :
  no_newline s -> no_newline (PyStr.latin1_to_utf8 s).
Proof.
  unfold no_newline. induction s as [|c s IH]; [done|].
  intros [Hc Hs]%andb_true_iff.
  change (String c s) with (String c EmptyString +:+ s).
  rewrite latin1_to_utf8_app, all_chars_app, IH, andb_true_r by done.
  apply latin1_to_utf8_byte. unfold is_not in Hc.
  apply negb_true_iff, bool_decide_eq_false in Hc. congruence.
Qed.

Lemma latin1_to_utf8_plain (s : string) :
  plain s -> PyStr.latin1_to_utf8 s = s.
Proof.
  unfold plain. induction s as [|c s IH]; [done|]. simpl.
  intros [[Hc _]%andb_true_iff Hs]%andb_true_iff.
  by rewrite Hc, IH.
Qed.

(** A line holds no newline, but for the one that may end it. *)
Lemma readlines_one_line (s : string) :
  Forall (fun l => exists b, no_newline b /\ (l = b \/ l = nl_after b))
    (PyStr.readlines s).
Proof.
  induction s as [|c s IH]; [constructor|]. simpl.
  destruct (decide (c = PyStr.newline)) as [->|Hc].
  - constructor; [|done]. exists EmptyString. split; [done|by right].
  - assert (is_not PyStr.newline c = true) as Hc'.
    { unfold is_not. apply negb_true_iff, bool_decide_eq_false. congruence. }
    destruct (PyStr.readlines s) as [|l ls].
    + constructor; [|done]. exists (String c EmptyString).
      split; [|by left]. unfold no_newline. simpl. by rewrite Hc'.
    + inversion IH as [|? ? (b & Hb & Hl) Hls]; subst.
      constructor; [|done]. exists (String c b).
      split; [unfold no_newline; simpl; by rewrite Hc', Hb|].
      destruct Hl as [->| ->]; [by left|by right].
Qed.

Section decoding_facts.
Context `{PyLib}.

Lemma decoded_no_backslash (l : string) :
  no_backslash l -> decoded l = Some (PyStr.latin1_to_utf8 l).
Proof.
  intros Hl. unfold decoded. by rewrite (all_chars_contains _ _ Hl).
Qed.

Lemma mapM_decoded_no_backslash (ls : list string) :
  Forall no_backslash ls ->
  mapM decoded ls = Some (PyStr.latin1_to_utf8 <$> ls).
Proof.
  intros Hls. apply mapM_Some, Forall2_fmap_r, Forall_Forall2_diag.
  eapply Forall_impl; [exact Hls|]. apply decoded_no_backslash.
Qed.

Lemma nonblank_lines_all_chars (P : ascii -> bool) (content : string) :
  all_chars P content = true ->
  Forall (fun l => all_chars P l = true) (nonblank_lines content).
Proof.
  intros Hc. unfold nonblank_lines. apply Forall_forall.
  intros l [_ Hl]%list_elem_of_filter.
  pose proof (all_chars_readlines P content Hc) as Hall.
  rewrite Forall_forall in Hall. by apply Hall.
Qed.

(** The loop of [process_post] ends in one of two ways. *)
Lemma process_lines_outcome (lines : list string) :
  forall text,
    (exists texts,
       mapM decoded (filter (fun l => nonblank l = true) lines) = Some texts /\
       foldlM process_line text lines = mret (text +:+ spaced texts)) \/
    (exists l,
       l ∈ filter (fun l => nonblank l = true) lines /\ decoded l = None /\
       foldlM process_line text lines = raise (UnicodeDecodeError l)).
Proof.
  intros text.
  destruct (mapM decoded (filter (fun l => nonblank l = true) lines))
    as [texts|] eqn:Hm.
  - left. exists texts. split; [done|]. by apply process_lines.
  - right. revert text. induction lines as [|line lines IH]; intros text; [done|].
    rewrite filter_cons in Hm |- *.
    destruct (decide (nonblank line = true)) as [Hb|Hb].
    + simpl in Hm. destruct (decoded line) as [s|] eqn:Hs.
      * destruct (mapM decoded _) as [r|] eqn:Hr; [done|].
        destruct (IH eq_refl (text +:+ (PyStr.strip s +:+ " ")))
          as (l & Hl & Hnone & Hf).
        exists l. split; [by right|]. split; [done|].
        simpl. by rewrite (process_line_decoded _ _ s), bind_ret_l.
      * exists line. split; [by left|]. split; [done|].
        simpl. by rewrite process_line_undecoded.
    + apply not_true_is_false in Hb.
      destruct (IH Hm text) as (l & Hl & Hnone & Hf).
      exists l. split; [done|]. split; [done|].
      simpl. by rewrite process_line_blank, bind_ret_l.
Qed.

Lemma process_lines_filter (lines : list string) :
  forall text,
    foldlM process_line text lines =
    foldlM process_line text (filter (fun l => nonblank l = true) lines).
Proof.
  induction lines as [|line lines IH]; intros text; [done|].
  rewrite filter_cons. destruct (decide (nonblank line = true)) as [Hb|Hb].
  - simpl. apply bind_ext. intros text'. apply IH.
  - apply not_true_is_false in Hb.
    simpl. rewrite process_line_blank, bind_ret_l by done. apply IH.
Qed.

End decoding_facts.

(** ** More on [process_post] *)

(** X3: [process_post] opens the file it is given and nothing else.  It
    returns a text only when the file exists and its non-blank lines all
    decode; a missing file raises [IOError], and the only other exception is
    [UnicodeDecodeError], for a non-blank line the codec rejects. *)
Theorem process_post_outcomes `{PyLib} (fs : filesystem) (file_path : string) :
  trace (process_post fs file_path) = [EvOpen file_path] /\
  match outcome (process_post fs file_path) with
  | Ok text =>
      exists content texts,
        files fs !! file_path = Some content /\
        mapM decoded (nonblank_lines content) = Some texts /\
        text = spaced texts
  | Raise (IOError p) => p = file_path /\ files fs !! file_path = None
  | Raise (UnicodeDecodeError l) =>
      exists content,
        files fs !! file_path = Some content /\
        l ∈ nonblank_lines content /\ decoded l = None
  | Raise _ => False
  end.
Proof.
  split; [apply trace_process_post|].
  rewrite process_post_open.
  destruct (files fs !! file_path) as [content|] eqn:Hf; [|done].
  destruct (process_lines_outcome (PyStr.readlines content) "")
    as [(texts & Hm & ->)|(l & Hl & Hnone & ->)]; simpl; eauto.
Qed.

(** X4: blank lines never change what [process_post] makes of a file: two
    files with the same non-blank lines give the same text, or the same
    exception. *)
Theorem process_post_skips_blank_lines `{PyLib} (fs : filesystem)
    (path1 path2 content1 content2 : string) :
  files fs !! path1 = Some content1 ->
  files fs !! path2 = Some content2 ->
  nonblank_lines content1 = nonblank_lines content2 ->
  outcome (process_post fs path1) = outcome (process_post fs path2).
Proof.
  intros H1 H2 Heq. rewrite !process_post_open, H1, H2. simpl.
  rewrite (process_lines_filter (PyStr.readlines content1)).
  rewrite (process_lines_filter (PyStr.readlines content2)).
  unfold nonblank_lines in Heq. by rewrite Heq.
Qed.

(** The two posts of [fs_blank]. *)
Lemma process_post_skips_blank_lines_witness :
  files fs_blank !! "a.txt" ≠ files fs_blank !! "b.txt" /\
  outcome (@process_post Ref.py_keep fs_blank "a.txt") = Ok "sad very sad " /\
  outcome (@process_post Ref.py_keep fs_blank "a.txt")
  = outcome (@process_post Ref.py_keep fs_blank "b.txt").
Proof.
  split; [by vm_compute|]. split; [by vm_compute|].
  eapply (@process_post_skips_blank_lines Ref.py_keep fs_blank);
    vm_compute; reflexivity.
Defined.

(** X5: a file of 7-bit bytes without backslash is read as it stands: the
    text is its non-blank lines, each stripped and followed by a space, and
    no exception is raised. *)
Theorem process_post_plain_verbatim `{PyLib} (fs : filesystem)
    (file_path content : string) :
  files fs !! file_path = Some content ->
  plain content ->
  process_post fs file_path =
  ([EvOpen file_path],
   Ok match nonblank_lines content with
      | [] => ""
      | ls => PyStr.join " " (PyStr.strip <$> ls) +:+ " "
      end).
Proof.
  intros Hf Hplain.
  pose proof (nonblank_lines_all_chars _ content Hplain) as Hlines.
  rewrite (process_post_decoded fs _ content (nonblank_lines content) Hf).
  - rewrite spaced_join. by destruct (nonblank_lines content).
  - apply mapM_Some, Forall_Forall2_diag.
    eapply Forall_impl; [exact Hlines|]. intros l Hl.
    rewrite decoded_no_backslash.
    + by rewrite latin1_to_utf8_plain.
    + eapply all_chars_weaken; [|exact Hl].
      by intros c [_ Hc]%andb_true_iff.
Qed.

(** The first post of [fs_posts]. *)
Lemma process_post_plain_verbatim_witness :
  plain (nl_after "sad" +:+ nl_after "" +:+ nl_after "  very sad ") /\
  outcome (@process_post Ref.py_keep fs_posts "./mixed_depression/p1.txt")
  = Ok (PyStr.join " " ["sad"; "very sad"] +:+ " ").
Proof.
  split; [by vm_compute|].
  rewrite (@process_post_plain_verbatim Ref.py_keep fs_posts
             "./mixed_depression/p1.txt"
             (nl_after "sad" +:+ nl_after "" +:+ nl_after "  very sad "));
    by vm_compute.
Defined.

Lemma spaced_no_newline (texts : list string) :
  Forall (fun s => no_newline (PyStr.strip s)) texts ->
  no_newline (spaced texts).
Proof.
  unfold no_newline. induction 1 as [|s texts Hs _ IH]; [done|].
  simpl. by rewrite !all_chars_app, Hs, IH.
Qed.

(** X6: the text of a file without backslash holds no newline, whatever
    bytes the file holds otherwise; such a file never raises
    [UnicodeDecodeError]. *)
Theorem process_post_one_line `{PyLib} (fs : filesystem)
    (file_path content : string) :
  files fs !! file_path = Some content ->
  no_backslash content ->
  exists text,
    outcome (process_post fs file_path) = Ok text /\ no_newline text.
Proof.
  intros Hf Hb.
  pose proof (nonblank_lines_all_chars _ content Hb) as Hlines.
  exists (spaced (PyStr.latin1_to_utf8 <$> nonblank_lines content)).
  rewrite (process_post_decoded fs _ content _ Hf
             (mapM_decoded_no_backslash _ Hlines)).
  split; [done|].
  apply spaced_no_newline, Forall_fmap, Forall_forall.
  intros l [_ Hl]%list_elem_of_filter. simpl.
  pose proof (readlines_one_line content) as Hshape.
  rewrite Forall_forall in Hshape.
  destruct (Hshape l Hl) as (b & Hnl & [->| ->]).
  - by apply all_chars_strip, latin1_to_utf8_no_newline.
  - unfold nl_after. rewrite latin1_to_utf8_app.
    change (PyStr.latin1_to_utf8 (String PyStr.newline ""))
      with (String PyStr.newline "").
    fold (nl_after (PyStr.latin1_to_utf8 b)). rewrite strip_newline.
    by apply all_chars_strip, latin1_to_utf8_no_newline.
Qed.

(** The first post of [fs_posts] again. *)
Lemma process_post_one_line_witness :
  exists text,
    outcome (@process_post Ref.py_keep fs_posts "./mixed_depression/p1.txt")
    = Ok text /\ no_newline text.
Proof.
  apply (@process_post_one_line Ref.py_keep fs_posts
           "./mixed_depression/p1.txt"
           (nl_after "sad" +:+ nl_after "" +:+ nl_after "  very sad "));
    by vm_compute.
Defined.

(** ** More on [construct_data] *)

(** When every element succeeds, the effects are those of the elements, in
    order. *)
Lemma trace_mapM_Ok {A B} (f : A -> M B) (l : list A) (r : list B) :
  outcome (mapM f l) = Ok r -> trace (mapM f l) = l ≫= (fun a => trace (f a)).
Proof.
  revert r. induction l as [|a l IH]; intros r; [done|].
  rewrite mapM_M_cons, outcome_bind, trace_bind.
  destruct (outcome (f a)) as [b|e]; [|done].
  rewrite outcome_bind, trace_bind.
  destruct (outcome (mapM f l)) as [r'|e] eqn:Hr; [|done].
  intros _. rewrite trace_mret, app_nil_r, (IH r') by done. done.
Qed.

Lemma label_of_0 (dep_fnames : list string) (fn : string) :
  label_of dep_fnames fn = 0%Z <-> fn ∈ dep_fnames.
Proof. unfold label_of. case_bool_decide; split; done. Qed.

Lemma label_of_1 (dep_fnames : list string) (fn : string) :
  label_of dep_fnames fn = 1%Z <-> fn ∉ dep_fnames.
Proof. unfold label_of. case_bool_decide; split; done. Qed.

Lemma count_label_of_0 (dep_fnames l : list string) :
  count_label 0 (label_of dep_fnames <$> l)
  = length (filter (fun fn => fn ∈ dep_fnames) l).
Proof.
  unfold count_label. induction l as [|fn l IH]; [done|].
  rewrite fmap_cons, !filter_cons.
  destruct (decide (fn ∈ dep_fnames)) as [Hin|Hin].
  - rewrite decide_True by (by apply label_of_0). simpl. by rewrite IH.
  - rewrite decide_False by (by rewrite label_of_0). exact IH.
Qed.

Lemma count_label_of_1 (dep_fnames l : list string) :
  count_label 1 (label_of dep_fnames <$> l)
  = length (filter (fun fn => fn ∉ dep_fnames) l).
Proof.
  unfold count_label. induction l as [|fn l IH]; [done|].
  rewrite fmap_cons, !filter_cons.
  destruct (decide (fn ∉ dep_fnames)) as [Hin|Hin].
  - rewrite decide_True by (by apply label_of_1). simpl. by rewrite IH.
  - rewrite decide_False by (by rewrite label_of_1). exact IH.
Qed.

Lemma filter_all {A} (P : A -> Prop) `{!forall x, Decision (P x)}
    (l : list A) :
  Forall P l -> filter P l = l.
Proof.
  induction 1 as [|x l Hx _ IH]; [done|].
  by rewrite filter_cons_True, IH.
Qed.

Lemma filter_none {A} (P : A -> Prop) `{!forall x, Decision (P x)}
    (l : list A) :
  Forall (fun x => ~ P x) l -> filter P l = [].
Proof.
  induction 1 as [|x l Hx _ IH]; [done|].
  by rewrite filter_cons_False.
Qed.

Section construct_more.
Context `{PyLib}.
Variable fs : filesystem.
Variables dep_fnames non_dep_fnames : list string.
Variables dep_dir non_dep_dir : string.

Local Abbreviation path := (path_of dep_fnames dep_dir non_dep_dir).
Local Abbreviation label := (label_of dep_fnames).
Local Abbreviation run :=
  (construct_data fs dep_fnames non_dep_fnames dep_dir non_dep_dir).

(** X7: the four lists of the data bunch are aligned.  The file names are
    the listed names in some order, and at every position the path is the
    name joined to the directory chosen for it, the label is 0 for a name of
    the depression listing and 1 otherwise, and the text is what
    [process_post] reads at that path. *)
Theorem construct_data_aligned (d : bunch) :
  outcome run = Ok d ->
  filenames d ≡ₚ dep_fnames ++ non_dep_fnames /\
  length (filepath d) = length (filenames d) /\
  forall i fn,
    filenames d !! i = Some fn ->
    exists text,
      filepath d !! i = Some (path fn) /\
      target d !! i = Some (label fn) /\
      data d !! i = Some text /\
      outcome (process_post fs (path fn)) = Ok text.
Proof.
  intros (Hnames & Hpath & Htarget & Hdata)%construct_data_Ok.
  split; [rewrite Hnames; apply shuffle_perm|].
  split; [by rewrite Hpath, length_fmap|].
  intros i fn Hfn.
  destruct (Forall2_lookup_l _ _ _ _ _ Hdata Hfn) as (text & Htext & Hload).
  exists text. by rewrite Hpath, Htarget, !list_lookup_fmap, Hfn.
Qed.

(** X8: [construct_data] loads all or nothing: it returns a data bunch
    exactly when every file it has to open can be read, and raises
    otherwise. *)
Theorem construct_data_all_or_nothing :
  (exists d, outcome run = Ok d) <->
  Forall (fun fn => readable fs (path fn) = true)
    (dep_fnames ++ non_dep_fnames).
Proof.
  split.
  - intros [d (Hnames & _ & _ & Hdata)%construct_data_Ok].
    rewrite <- (shuffle_perm (dep_fnames ++ non_dep_fnames)), <- Hnames.
    apply Forall_forall. intros fn [i Hi]%list_elem_of_lookup.
    destruct (Forall2_lookup_l _ _ _ _ _ Hdata Hi) as (text & _ & Hload).
    apply process_post_readable. by exists text.
  - intros Hall. apply construct_data_total.
    by apply Forall_forall.
Qed.

(** X9: a call that returns has opened one file for each record, in the
    order of the records, and has done nothing else. *)
Theorem construct_data_opens_in_order (d : bunch) :
  outcome run = Ok d -> trace run = EvOpen <$> filepath d.
Proof.
  intros Hd. pose proof Hd as (Hnames & Hpath & _ & _)%construct_data_Ok.
  rewrite construct_data_load in Hd |- *. cbv zeta in Hd |- *.
  rewrite outcome_bind in Hd. rewrite trace_bind.
  destruct (outcome (mapM _ _)) as [texts|e] eqn:Hm; [|done].
  rewrite trace_mret, app_nil_r, (trace_mapM_Ok _ _ _ Hm).
  rewrite Hpath, Hnames.
  generalize (shuffle (dep_fnames ++ non_dep_fnames)) as l.
  induction l as [|fn l IH]; [done|].
  rewrite bind_cons, IH. unfold load_record.
  by rewrite trace_process_post.
Qed.

(** X10: the labels 0 are as many as the files of the depression listing
    plus the names of the other listing that the depression listing holds
    too; the labels 1 are as many as the remaining names of the other
    listing. *)
Theorem construct_data_label_counts (d : bunch) :
  outcome run = Ok d ->
  count_label 0 (target d)
  = (length dep_fnames
     + length (filter (fun fn => fn ∈ dep_fnames) non_dep_fnames))%nat /\
  count_label 1 (target d)
  = length (filter (fun fn => fn ∉ dep_fnames) non_dep_fnames).
Proof.
  intros (Hnames & _ & Htarget & _)%construct_data_Ok.
  rewrite Htarget, Hnames.
  assert (label <$> shuffle (dep_fnames ++ non_dep_fnames)
          ≡ₚ label <$> (dep_fnames ++ non_dep_fnames)) as Hperm
    by (by rewrite (shuffle_perm _)).
  unfold count_label. rewrite !Hperm.
  fold (count_label 0 (label <$> (dep_fnames ++ non_dep_fnames))).
  fold (count_label 1 (label <$> (dep_fnames ++ non_dep_fnames))).
  rewrite count_label_of_0, count_label_of_1, !filter_app, !length_app.
  assert (filter (fun fn => fn ∈ dep_fnames) dep_fnames = dep_fnames) as ->.
  { apply filter_all. by apply Forall_forall. }
  assert (filter (fun fn => fn ∉ dep_fnames) dep_fnames = []) as ->.
  { apply filter_none. apply Forall_forall. auto. }
  done.
Qed.

(** X11: two records read the same file only when they carry the same file
    name, the listed names holding no slash. *)
Theorem construct_data_same_path (d : bunch) (i j : nat) (p : string) :
  outcome run = Ok d ->
  Forall no_slash (dep_fnames ++ non_dep_fnames) ->
  filepath d !! i = Some p -> filepath d !! j = Some p ->
  filenames d !! i = filenames d !! j.
Proof.
  intros (Hnames & Hpath & _ & _)%construct_data_Ok Hslash Hi Hj.
  rewrite Hpath in Hi, Hj.
  apply list_lookup_fmap_Some in Hi as (a & Ha & Hia).
  apply list_lookup_fmap_Some in Hj as (b & Hb & Hjb).
  rewrite Hia, Hjb. f_equal.
  rewrite Forall_forall in Hslash.
  assert (no_slash a) as Hsa.
  { apply Hslash. rewrite <- (shuffle_perm _), <- Hnames.
    by eapply list_elem_of_lookup_2. }
  assert (no_slash b) as Hsb.
  { apply Hslash. rewrite <- (shuffle_perm _), <- Hnames.
    by eapply list_elem_of_lookup_2. }
  rewrite Ha in Hb. unfold path_of in Hb.
  repeat case_bool_decide;
    apply os_path_join_inj in Hb as [Heq _]; congruence.
Qed.

End construct_more.

(** The three posts of [fs_posts], shuffled by Python's own loop. *)
Lemma construct_data_aligned_witness :
  exists d,
    outcome (@construct_data (py_random fifths) fs_posts ["p1.txt"; "p2.txt"]
               ["q1.txt"] DEP NON_DEP) = Ok d /\
    filenames d ≡ₚ ["p1.txt"; "p2.txt"] ++ ["q1.txt"] /\
    length (filepath d) = length (filenames d) /\
    forall i fn,
      filenames d !! i = Some fn ->
      exists text,
        filepath d !! i
        = Some (path_of ["p1.txt"; "p2.txt"] DEP NON_DEP fn) /\
        target d !! i = Some (label_of ["p1.txt"; "p2.txt"] fn) /\
        data d !! i = Some text /\
        outcome (@process_post (py_random fifths) fs_posts
                   (path_of ["p1.txt"; "p2.txt"] DEP NON_DEP fn)) = Ok text.
Proof.
  eexists. split; [vm_compute; reflexivity|].
  apply (@construct_data_aligned (py_random fifths) fs_posts
           ["p1.txt"; "p2.txt"] ["q1.txt"] DEP NON_DEP).
  vm_compute; reflexivity.
Defined.

(** The same call opens the three posts in the order of its records. *)
Lemma construct_data_opens_in_order_witness :
  trace (@construct_data (py_random fifths) fs_posts ["p1.txt"; "p2.txt"]
           ["q1.txt"] DEP NON_DEP)
  = [EvOpen "./mixed_depression/p2.txt";
     EvOpen "./mixed_non_depression/q1.txt";
     EvOpen "./mixed_depression/p1.txt"] /\
  exists d,
    outcome (@construct_data (py_random fifths) fs_posts ["p1.txt"; "p2.txt"]
               ["q1.txt"] DEP NON_DEP) = Ok d /\
    trace (@construct_data (py_random fifths) fs_posts ["p1.txt"; "p2.txt"]
             ["q1.txt"] DEP NON_DEP) = EvOpen <$> filepath d.
Proof.
  split; [by vm_compute|].
  eexists. split; [vm_compute; reflexivity|].
  apply (@construct_data_opens_in_order (py_random fifths) fs_posts
           ["p1.txt"; "p2.txt"] ["q1.txt"] DEP NON_DEP).
  vm_compute; reflexivity.
Defined.

(** The shared name of [fs_shared]: two labels 0, no label 1. *)
Lemma construct_data_label_counts_witness :
  exists d,
    outcome (@construct_data Ref.py_reverse fs_shared ["post.txt"]
               ["post.txt"] DEP NON_DEP) = Ok d /\
    count_label 0 (target d) = 2%nat /\ count_label 1 (target d) = 0%nat.
Proof.
  eexists. split; [vm_compute; reflexivity|].
  apply (@construct_data_label_counts Ref.py_reverse fs_shared ["post.txt"]
           ["post.txt"] DEP NON_DEP).
  vm_compute; reflexivity.
Defined.

(** The two records of [fs_shared] read the same file and carry the same
    name. *)
Lemma construct_data_same_path_witness :
  exists d,
    outcome (@construct_data Ref.py_reverse fs_shared ["post.txt"]
               ["post.txt"] DEP NON_DEP) = Ok d /\
    filepath d !! 0%nat = filepath d !! 1%nat /\
    filenames d !! 0%nat = filenames d !! 1%nat.
Proof.
  eexists. split; [vm_compute; reflexivity|]. split; [by vm_compute|].
  apply (@construct_data_same_path Ref.py_reverse fs_shared ["post.txt"]
           ["post.txt"] DEP NON_DEP _ 0%nat 1%nat
           "./mixed_depression/post.txt");
    [vm_compute; reflexivity|repeat constructor|by vm_compute|by vm_compute].
Defined.

(** ** More on [classify_kfold] *)

Lemma outcome_mapM_first_raise {A B} (f : A -> M B) (done : list A)
    (rs : list B) (a : A) (rest : list A) (e : exn) :
  Forall2 (fun a b => outcome (f a) = Ok b) done rs ->
  outcome (f a) = Raise e ->
  outcome (mapM f (done ++ a :: rest)) = Raise e /\
  trace (mapM f (done ++ a :: rest))
  = (done ≫= fun a => trace (f a)) ++ trace (f a).
Proof.
  intros Hdone Ha. induction Hdone as [|a' b done rs Hb _ [IHo IHt]].
  - simpl app. rewrite mapM_M_cons, outcome_bind, trace_bind, Ha. done.
  - change ((a' :: done) ++ a :: rest) with (a' :: (done ++ a :: rest)).
    rewrite mapM_M_cons, outcome_bind, trace_bind, Hb.
    rewrite outcome_bind, trace_bind, IHo, IHt.
    split; [done|]. by rewrite bind_cons, <- app_assoc.
Qed.

Section kfold_more.
Context `{SkLearn}.

Lemma outcome_evaluate (m : model) (x_test : matrix) (y_test : list Z) :
  outcome (evaluate m x_test y_test) =
  match roc_auc_score y_test (snd <$> lr_predict_proba m x_test) with
  | Ok ev_roc =>
      Ok (let '(p, r, f, s) :=
            prf_evaluator y_test (lr_predict m x_test) "binary" in
          FoldEv.Make (lr_score m x_test y_test) ev_roc p r f s)
  | Raise e => Raise e
  end.
Proof.
  unfold evaluate. rewrite outcome_bind. simpl.
  destruct (roc_auc_score _ _) as [ev_roc|e]; [|done].
  unfold EVAL_AVERAGE. by destruct (prf_evaluator _ _ _) as [[[p r] f] s].
Qed.

(** A fold returns scores exactly when its rows can be selected, the
    classifier can be fitted and the ROC-AUC computed, and then the scores
    are the held-out ones. *)
Lemma fold_run_held_out (x : matrix) (y : list Z)
    (it : nat * (list nat * list nat)) (ev : FoldEv.t) :
  outcome (fold_run x y it) = Ok ev <-> held_out x y it.2 ev.
Proof.
  destruct it as [indx [train_indices test_indices]].
  rewrite fold_run_unfold. unfold held_out. cbv zeta. simpl.
  split.
  - destruct (select (rows x) train_indices) as [x_train|]; [|done].
    destruct (select (rows x) test_indices) as [x_test|]; [|done].
    destruct (select y train_indices) as [y_train|]; [|done].
    destruct (select y test_indices) as [y_test|]; [|done].
    simpl. destruct (lr_fit _ _ _) as [m|e] eqn:Hfit; [|done].
    rewrite outcome_evaluate.
    destruct (roc_auc_score _ _) as [ev_roc|e] eqn:Hroc; [|done].
    intros Hev. injection Hev as <-.
    exists x_train, x_test, y_train, y_test, m, ev_roc. by repeat split.
  - intros (x_train & x_test & y_train & y_test & m & ev_roc
            & -> & -> & -> & -> & Hfit & Hroc & ->).
    simpl. by rewrite Hfit, outcome_evaluate, Hroc.
Qed.

Lemma fits_done_folds (x : matrix) (y : list Z)
    (done : list (nat * (list nat * list nat))) (evs : list FoldEv.t) :
  Forall2 (fun it ev => outcome (fold_run x y it) = Ok ev) done evs ->
  length (fits (done ≫= fun it => trace (fold_run x y it))) = length done.
Proof.
  induction 1 as [|it ev done evs Hev _ IH]; [done|].
  rewrite bind_cons, fits_app, length_app, IH.
  by destruct (fold_run_Ok_fits x y it ev Hev) as (e & _ & ->).
Qed.

Lemma trace_fold_run_Ok (x : matrix) (y : list Z)
    (it : nat * (list nat * list nat)) (ev : FoldEv.t) :
  outcome (fold_run x y it) = Ok ev ->
  trace (fold_run x y it)
  = progress_line it.1 :: option_list (fold_fit x y it.2).
Proof.
  destruct it as [indx [train_indices test_indices]].
  rewrite fold_run_unfold. unfold fold_fit, progress_line. cbv zeta. simpl.
  destruct (select (rows x) train_indices) as [x_train|]; [|done].
  destruct (select (rows x) test_indices) as [x_test|]; [|done].
  destruct (select y train_indices) as [y_train|]; [|done].
  by destruct (select y test_indices) as [y_test|].
Qed.

(** X12: [classify_kfold] returns only when the splitter returned folds
    and every fold was fitted on its training rows and scored on its test
    rows; the evaluation it returns lists the precision, recall and F-score
    of the folds in fold order, next to the means of their accuracies and
    ROC-AUC scores. *)
Theorem classify_kfold_held_out (x : matrix) (y : list Z)
    (e : Evaluation.t) :
  outcome (classify_kfold x y) = Ok e ->
  exists folds evs,
    skf_split KFOLD_SPLITS true x y = Ok folds /\
    Forall2 (held_out x y) folds evs /\
    e = Evaluation.Make (FoldEv.precision <$> evs) (FoldEv.recall <$> evs)
          (FoldEv.fscore <$> evs) (np_mean (FoldEv.cv <$> evs))
          (np_mean (FoldEv.roc <$> evs)).
Proof.
  rewrite classify_kfold_runs, outcome_bind. simpl.
  destruct (skf_split _ _ _ _) as [folds|err]; [|done].
  rewrite outcome_bind.
  destruct (outcome (mapM _ _)) as [evs|err] eqn:Hevs; [|done].
  intros He. injection He as <-.
  exists folds, evs. split; [done|]. split; [|done].
  apply outcome_mapM_Ok in Hevs.
  rewrite <- (enumerate_snd folds) at 1. apply Forall2_fmap_l.
  eapply Forall2_impl; [exact Hevs|].
  intros it ev Hev. by apply fold_run_held_out.
Qed.

(** X13: [classify_kfold] stops at the first fold that fails.  It raises
    the exception of that fold, and its effects are those of the folds
    before it followed by those of the failing fold: later folds are neither
    announced nor trained. *)
Theorem classify_kfold_first_failure (x : matrix) (y : list Z)
    (folds : list (list nat * list nat))
    (done rest : list (nat * (list nat * list nat)))
    (it : nat * (list nat * list nat)) (evs : list FoldEv.t) (e : exn) :
  skf_split KFOLD_SPLITS true x y = Ok folds ->
  enumerate folds = done ++ it :: rest ->
  Forall2 (fun it ev => outcome (fold_run x y it) = Ok ev) done evs ->
  outcome (fold_run x y it) = Raise e ->
  outcome (classify_kfold x y) = Raise e /\
  trace (classify_kfold x y)
  = (done ≫= fun it => trace (fold_run x y it)) ++ trace (fold_run x y it) /\
  (length (fits (trace (classify_kfold x y))) <= S (length done))%nat.
Proof.
  intros Hsplit Hfolds Hdone Hit.
  destruct (outcome_mapM_first_raise (fold_run x y) done evs it rest e
              Hdone Hit) as [Ho Ht].
  rewrite classify_kfold_runs, outcome_bind, trace_bind. simpl.
  rewrite Hsplit. simpl. rewrite outcome_bind, trace_bind, Hfolds, Ho, Ht.
  split; [done|]. split; [done|].
  rewrite fits_app, length_app, (fits_done_folds x y done evs Hdone).
  destruct (fold_run_fits x y it) as [->|(ev & _ & ->)]; simpl; lia.
Qed.

(** X14: in a run of [classify_kfold] that completes, the effects are, fold
    after fold, the progress line of the fold, numbered from 1 and always
    out of 10, and then the call of [fit] for the fold; nothing else
    happens. *)
Theorem classify_kfold_completed_trace (x : matrix) (y : list Z)
    (folds : list (list nat * list nat)) (e : Evaluation.t) :
  skf_split KFOLD_SPLITS true x y = Ok folds ->
  outcome (classify_kfold x y) = Ok e ->
  trace (classify_kfold x y)
  = enumerate folds ≫=
      (fun it => progress_line it.1 :: option_list (fold_fit x y it.2)).
Proof.
  intros Hsplit. rewrite classify_kfold_runs, outcome_bind, trace_bind.
  simpl. rewrite Hsplit. simpl. rewrite outcome_bind, trace_bind.
  destruct (outcome (mapM _ _)) as [evs|err] eqn:Hevs; [|done].
  intros _. rewrite trace_mret, app_nil_r, (trace_mapM_Ok _ _ _ Hevs).
  apply outcome_mapM_Ok in Hevs.
  induction Hevs as [|it ev its evs Hev _ IH]; [done|].
  by rewrite !bind_cons, IH, (trace_fold_run_Ok x y it ev Hev).
Qed.

End kfold_more.

(** Twenty samples under the reference splitter and classifier. *)
Lemma classify_kfold_held_out_witness :
  exists e folds evs,
    outcome (@classify_kfold Ref.sklearn x20 y20) = Ok e /\
    skf_split (SkLearn := Ref.sklearn) KFOLD_SPLITS true x20 y20 = Ok folds /\
    length folds = 10%nat /\
    Forall2 (@held_out Ref.sklearn x20 y20) folds evs /\
    Evaluation.precision e = FoldEv.precision <$> evs.
Proof.
  destruct (@classify_kfold_held_out Ref.sklearn x20 y20
              ltac:(let r := eval vm_compute in
                      (outcome_value (@classify_kfold Ref.sklearn x20 y20)) in
                    match r with Some ?f => exact f end))
    as (folds & evs & Hsplit & Hevs & He); [by vm_compute|].
  eexists _, folds, evs. split; [vm_compute; reflexivity|].
  split; [exact Hsplit|]. split; [|split; [exact Hevs|]].
  - vm_compute in Hsplit. by injection Hsplit as <-.
  - by rewrite He.
Defined.

(** With nine samples of class 0 the tenth fold cannot be scored: the run
    stops there, after ten calls of [fit]. *)
Lemma classify_kfold_first_failure_witness :
  outcome (@classify_kfold Ref.sklearn x20 y20_short)
  = Raise (ValueError "only one class present in y_true") /\
  (length (fits (trace (@classify_kfold Ref.sklearn x20 y20_short)))
   <= 10)%nat.
Proof.
  pose (folds := default [] (result_value (Ref.split 10 true x20 y20_short))).
  destruct (@classify_kfold_first_failure Ref.sklearn x20 y20_short folds
              (take 9 (enumerate folds)) []
              (9%nat, default ([], []) (folds !! 9%nat))
              ltac:(let r := eval vm_compute in
                      (outcome_value
                         (mapM (@fold_run Ref.sklearn x20 y20_short)
                            (take 9 (enumerate folds)))) in
                    match r with Some ?f => exact f end)
              (ValueError "only one class present in y_true"))
    as (Ho & _ & Hn).
  - by vm_compute.
  - by vm_compute.
  - apply outcome_mapM_Ok. by vm_compute.
  - by vm_compute.
  - split; [exact Ho|exact Hn].
Defined.

(** The run on twenty samples: ten progress lines, each followed by a call
    of [fit]. *)
Lemma classify_kfold_completed_trace_witness :
  exists folds,
    skf_split (SkLearn := Ref.sklearn) KFOLD_SPLITS true x20 y20 = Ok folds /\
    trace (@classify_kfold Ref.sklearn x20 y20)
    = enumerate folds ≫=
        (fun it => progress_line it.1 :: option_list (fold_fit x20 y20 it.2)) /\
    length (trace (@classify_kfold Ref.sklearn x20 y20)) = 20%nat.
Proof.
  eexists. split; [vm_compute; reflexivity|]. split; [|by vm_compute].
  eapply (@classify_kfold_completed_trace Ref.sklearn x20 y20);
    vm_compute; reflexivity.
Defined.

(** ** The script as a whole *)

Lemma opens_app (t1 t2 : list event) : opens (t1 ++ t2) = opens t1 ++ opens t2.
Proof. apply filter_app. Qed.

Lemma closed_bind {A B} (m : M A) (k : A -> M B) :
  closed m -> (forall a, outcome m = Ok a -> closed (k a)) -> closed (m ≫= k).
Proof.
  unfold closed. intros Hm Hk. rewrite trace_bind.
  destruct (outcome m) as [a|e]; [|done].
  by rewrite opens_app, Hm, (Hk a).
Qed.

Lemma phased_bind {A B} (m : M A) (k : A -> M B) :
  quiet m -> (forall a, outcome m = Ok a -> phased (trace (k a))) ->
  phased (trace (m ≫= k)).
Proof.
  unfold quiet. intros Hm Hk. rewrite trace_bind.
  destruct (outcome m) as [a|e].
  - destruct (Hk a eq_refl) as (t1 & t2 & -> & H1 & H2).
    exists (trace m ++ t1), t2. rewrite app_assoc, fits_app, Hm, H1. done.
  - exists (trace m), []. by rewrite app_nil_r.
Qed.

Lemma phased_closed {A} (m : M A) : closed m -> phased (trace m).
Proof. intros Hm. by exists [], (trace m). Qed.

Lemma fits_bind_Ok {A B} (m : M A) (k : A -> M B) (b : B) :
  outcome (m ≫= k) = Ok b ->
  exists a, outcome m = Ok a /\ outcome (k a) = Ok b /\
            fits (trace (m ≫= k)) = fits (trace m) ++ fits (trace (k a)).
Proof.
  rewrite outcome_bind, trace_bind.
  destruct (outcome m) as [a|e]; [|done].
  intros Hb. exists a. by rewrite fits_app.
Qed.

Lemma os_listdir_Ok_inv (fs : filesystem) (path : string) (l : list string) :
  outcome (os_listdir fs path) = Ok l -> dirs fs !! path = Some l.
Proof.
  unfold os_listdir. rewrite bind_emit. simpl.
  destruct (dirs fs !! path); [|done]. by intros [= ->].
Qed.

Lemma os_listdir_Some (fs : filesystem) (path : string) (l : list string) :
  dirs fs !! path = Some l -> os_listdir fs path = ([EvListdir path], Ok l).
Proof. intros Hl. unfold os_listdir. by rewrite bind_emit, Hl. Qed.

Lemma os_listdir_None (fs : filesystem) (path : string) :
  dirs fs !! path = None ->
  os_listdir fs path = ([EvListdir path], Raise (OSError path)).
Proof. intros Hl. unfold os_listdir. by rewrite bind_emit, Hl. Qed.

Lemma bind_pair_Ok {A B} (t : list event) (a : A) (k : A -> M B) :
  (((t, Ok a) : M A) ≫= k) = (t ++ trace (k a), outcome (k a)).
Proof. unfold mbind, M_mbind. simpl. by destruct (k a). Qed.

Lemma bind_pair_Raise {A B} (t : list event) (e : exn) (k : A -> M B) :
  (((t, Raise e) : M A) ≫= k) = (t, Raise e).
Proof. done. Qed.

Lemma closed_print (args : list value) : closed (print args).
Proof. done. Qed.

Lemma closed_lift {A} (r : result A) : closed (lift r).
Proof. done. Qed.

Section script_facts.
Context `{SkLearn}.

Lemma outcome_make_count_vectors (raw_data : list string) (x : matrix) :
  outcome (make_count_vectors raw_data) = Ok x ->
  count_fit_transform (VecConfig (1, 3) "word" "utf8") raw_data = Ok x.
Proof.
  unfold make_count_vectors. rewrite outcome_bind. simpl.
  destruct (count_fit_transform _ _) as [m|e]; [|done]. by intros [= ->].
Qed.

Lemma outcome_make_tfidf_vectors (raw_data : list string) (x : matrix) :
  outcome (make_tfidf_vectors raw_data) = Ok x ->
  tfidf_fit_transform (VecConfig (1, 3) "word" "utf8") raw_data = Ok x.
Proof.
  unfold make_tfidf_vectors. rewrite outcome_bind. simpl.
  destruct (tfidf_fit_transform _ _) as [m|e]; [|done]. by intros [= ->].
Qed.

Lemma quiet_make_tfidf_vectors (raw_data : list string) :
  quiet (make_tfidf_vectors raw_data).
Proof.
  unfold make_tfidf_vectors. apply quiet_bind; [apply quiet_lift|].
  intros m _. apply quiet_bind; [apply quiet_print|done].
Qed.

Lemma closed_make_count_vectors (raw_data : list string) :
  closed (make_count_vectors raw_data).
Proof.
  unfold make_count_vectors. apply closed_bind; [apply closed_lift|].
  intros m _. apply closed_bind; [apply closed_print|done].
Qed.

Lemma closed_make_tfidf_vectors (raw_data : list string) :
  closed (make_tfidf_vectors raw_data).
Proof.
  unfold make_tfidf_vectors. apply closed_bind; [apply closed_lift|].
  intros m _. apply closed_bind; [apply closed_print|done].
Qed.

Lemma quiet_report (e : Evaluation.t) : quiet (report e).
Proof. done. Qed.

Lemma closed_report (e : Evaluation.t) : closed (report e).
Proof. done. Qed.

Lemma closed_fold_run (x : matrix) (y : list Z)
    (it : nat * (list nat * list nat)) :
  closed (fold_run x y it).
Proof.
  destruct it as [indx [train_indices test_indices]].
  unfold closed. rewrite fold_run_unfold. cbv zeta.
  destruct (select (rows x) train_indices) as [x_train|]; [|done].
  destruct (select (rows x) test_indices) as [x_test|]; [|done].
  destruct (select y train_indices) as [y_train|]; [|done].
  by destruct (select y test_indices) as [y_test|].
Qed.

Lemma opens_nil (t : list event) :
  (forall e, e ∈ t -> is_open e = false) -> opens t = [].
Proof.
  induction t as [|e t IH]; intros Hall; [done|].
  unfold opens. rewrite filter_cons, decide_False.
  - apply IH. intros e' He'. apply Hall. by right.
  - rewrite (Hall e) by (by left). done.
Qed.

Lemma closed_classify_kfold (x : matrix) (y : list Z) :
  closed (classify_kfold x y).
Proof.
  rewrite classify_kfold_runs. apply closed_bind; [apply closed_lift|].
  intros folds _. apply closed_bind; [|done].
  apply opens_nil. intros e (it & _ & He)%trace_mapM_elem.
  destruct (is_open e) eqn:Hopen; [|done].
  assert (e ∈ opens (trace (fold_run x y it))) as Hin
    by (by apply list_elem_of_filter).
  rewrite (closed_fold_run x y it) in Hin. by apply elem_of_nil in Hin.
Qed.

(** The calls of [fit] of a run of [classify_kfold] that completes. *)
Lemma classify_kfold_fits (x : matrix) (y : list Z) (e : Evaluation.t) :
  outcome (classify_kfold x y) = Ok e ->
  exists folds,
    skf_split KFOLD_SPLITS true x y = Ok folds /\
    mapM (fold_fit x y) folds = Some (fits (trace (classify_kfold x y))).
Proof.
  rewrite classify_kfold_runs, outcome_bind, trace_bind. simpl.
  destruct (skf_split _ _ _ _) as [folds|err]; [|done].
  simpl. rewrite outcome_bind, trace_bind.
  destruct (outcome (mapM _ _)) as [evs|err] eqn:Hevs; [|done].
  intros _. exists folds. split; [done|].
  rewrite trace_mret, app_nil_r. apply mapM_Some.
  apply fits_mapM_fold_run in Hevs.
  rewrite <- (enumerate_snd folds) at 1. by apply Forall2_fmap_l.
Qed.

End script_facts.

Section script_claims.
Context `{PyLib} `{SkLearn}.
Variable fs : filesystem.

(** X15: when either directory cannot be listed the script stops with
    [OSError] for that directory, before any file is opened and before
    anything is trained. *)
Theorem main_missing_directory :
  dirs fs !! DEP = None \/ dirs fs !! NON_DEP = None ->
  exists path,
    (path = DEP \/ path = NON_DEP) /\ dirs fs !! path = None /\
    outcome (main fs) = Raise (OSError path) /\
    opens (trace (main fs)) = [] /\ fits (trace (main fs)) = [].
Proof.
  intros Hmiss. unfold main, print, emit.
  destruct (dirs fs !! DEP) as [dep|] eqn:Hdep.
  - destruct Hmiss as [Hmiss|Hnon]; [done|].
    exists NON_DEP. split; [by right|]. split; [done|].
    rewrite bind_pair_Ok, (os_listdir_Some _ _ _ Hdep), bind_pair_Ok,
      (os_listdir_None _ _ Hnon), bind_pair_Raise.
    done.
  - exists DEP. split; [by left|]. split; [done|].
    by rewrite bind_pair_Ok, (os_listdir_None _ _ Hdep), bind_pair_Raise.
Qed.

(** X16: when loading the corpus fails, the script fails with the same
    exception, and after the failed load it does nothing more: no count is
    printed, nothing is vectorized or trained. *)
Theorem main_load_failure (dep_fnames non_dep_fnames : list string)
    (e : exn) :
  dirs fs !! DEP = Some dep_fnames ->
  dirs fs !! NON_DEP = Some non_dep_fnames ->
  outcome (construct_data fs dep_fnames non_dep_fnames DEP NON_DEP)
  = Raise e ->
  main fs =
  ([EvPrint [VStr (nl "Processing data")];
    EvListdir DEP; EvListdir NON_DEP;
    EvPrint [VStr "number of depression files: ";
             VInt (length dep_fnames)];
    EvPrint [VStr "number of non-depression files: ";
             VInt (length non_dep_fnames)]]
   ++ trace (construct_data fs dep_fnames non_dep_fnames DEP NON_DEP),
   Raise e).
Proof.
  intros Hdep Hnon He. unfold main, print, emit.
  rewrite bind_pair_Ok, (os_listdir_Some _ _ _ Hdep), bind_pair_Ok,
    (os_listdir_Some _ _ _ Hnon), !bind_pair_Ok.
  rewrite bind_unfold, He. done.
Qed.

(** X17: in a run of the script that completes, both matrices are
    vectorized from all the texts of the data bunch, and the calls of [fit]
    are those of the folds of the count matrix followed by those of the
    folds of the TF-IDF matrix, each on rows of its matrix and on the labels
    of the data bunch. *)
Theorem main_training_calls :
  outcome (main fs) = Ok tt ->
  exists dep_fnames non_dep_fnames d x_counts x_tfidf folds1 folds2,
    dirs fs !! DEP = Some dep_fnames /\
    dirs fs !! NON_DEP = Some non_dep_fnames /\
    outcome (construct_data fs dep_fnames non_dep_fnames DEP NON_DEP)
    = Ok d /\
    count_fit_transform (VecConfig (1, 3) "word" "utf8") (data d)
    = Ok x_counts /\
    tfidf_fit_transform (VecConfig (1, 3) "word" "utf8") (data d)
    = Ok x_tfidf /\
    skf_split 10 true x_counts (target d) = Ok folds1 /\
    skf_split 10 true x_tfidf (target d) = Ok folds2 /\
    exists fits1 fits2,
      mapM (fold_fit x_counts (target d)) folds1 = Some fits1 /\
      mapM (fold_fit x_tfidf (target d)) folds2 = Some fits2 /\
      fits (trace (main fs)) = fits1 ++ fits2.
Proof.
  intros Hmain. unfold main in *.
  apply fits_bind_Ok in Hmain as (_ & _ & Hmain & ->).
  apply fits_bind_Ok in Hmain as (dep_fnames & Hdep & Hmain & ->).
  apply fits_bind_Ok in Hmain as (non_dep_fnames & Hnon & Hmain & ->).
  apply fits_bind_Ok in Hmain as (_ & _ & Hmain & ->).
  apply fits_bind_Ok in Hmain as (_ & _ & Hmain & ->).
  apply fits_bind_Ok in Hmain as (d & Hd & Hmain & ->).
  do 6 apply fits_bind_Ok in Hmain as (_ & _ & Hmain & ->).
  apply fits_bind_Ok in Hmain as (x_counts & Hxc & Hmain & ->).
  apply fits_bind_Ok in Hmain as (count_eval & Hce & Hmain & ->).
  apply fits_bind_Ok in Hmain as (_ & _ & Hmain & ->).
  apply fits_bind_Ok in Hmain as (_ & _ & Hmain & ->).
  apply fits_bind_Ok in Hmain as (x_tfidf & Hxt & Hmain & ->).
  apply fits_bind_Ok in Hmain as (tfidf_eval & Hte & Hmain & ->).
  destruct (classify_kfold_fits _ _ _ Hce) as (folds1 & Hs1 & Hf1).
  destruct (classify_kfold_fits _ _ _ Hte) as (folds2 & Hs2 & Hf2).
  exists dep_fnames, non_dep_fnames, d, x_counts, x_tfidf, folds1, folds2.
  split; [by apply os_listdir_Ok_inv|].
  split; [by apply os_listdir_Ok_inv|].
  split; [done|].
  split; [by apply outcome_make_count_vectors|].
  split; [by apply outcome_make_tfidf_vectors|].
  split; [done|]. split; [done|].
  eexists _, _. split; [exact Hf1|]. split; [exact Hf2|].
  rewrite (quiet_os_listdir fs DEP), (quiet_os_listdir fs NON_DEP),
    (quiet_construct_data fs), (quiet_make_count_vectors (data d)),
    (quiet_make_tfidf_vectors (data d)), (quiet_report count_eval),
    (quiet_report tfidf_eval).
  simpl. by rewrite app_nil_r.
Qed.

(** X18: whatever happens, the script first loads and then trains: its
    effects split into a first part without any call of [fit] and a second
    part in which no file is opened. *)
Theorem main_loads_then_trains : phased (trace (main fs)).
Proof.
  unfold main.
  apply phased_bind; [apply quiet_print|]. intros _ _.
  apply phased_bind; [apply quiet_os_listdir|]. intros dep_fnames _.
  apply phased_bind; [apply quiet_os_listdir|]. intros non_dep_fnames _.
  apply phased_bind; [apply quiet_print|]. intros _ _.
  apply phased_bind; [apply quiet_print|]. intros _ _.
  apply phased_bind; [apply quiet_construct_data|]. intros d _.
  apply phased_closed.
  repeat first
    [ apply closed_print | apply closed_report
    | apply closed_make_count_vectors | apply closed_make_tfidf_vectors
    | apply closed_classify_kfold
    | apply closed_bind; [|intros ? _] ].
Qed.

End script_claims.

(** No directory at all: listing the first one fails. *)
Lemma main_missing_directory_witness :
  exists path,
    (path = DEP \/ path = NON_DEP) /\
    dirs (FileSystem ∅ ∅) !! path = None /\
    outcome (@main Ref.py_keep Ref.sklearn (FileSystem ∅ ∅))
    = Raise (OSError path) /\
    opens (trace (@main Ref.py_keep Ref.sklearn (FileSystem ∅ ∅))) = [] /\
    fits (trace (@main Ref.py_keep Ref.sklearn (FileSystem ∅ ∅))) = [].
Proof.
  apply (@main_missing_directory Ref.py_keep Ref.sklearn (FileSystem ∅ ∅)).
  by left.
Defined.

(** The listed post of [fs_missing] cannot be opened. *)
Lemma main_load_failure_witness :
  outcome (@main Ref.py_keep Ref.sklearn fs_missing)
  = Raise (IOError "./mixed_depression/gone.txt") /\
  length (trace (@main Ref.py_keep Ref.sklearn fs_missing)) = 6%nat.
Proof.
  rewrite (@main_load_failure Ref.py_keep Ref.sklearn fs_missing ["gone.txt"]
             [] (IOError "./mixed_depression/gone.txt"));
    by vm_compute.
Defined.

(** The script on the twenty posts of [fs_corpus]: twenty calls of [fit]. *)
Lemma main_training_calls_witness :
  outcome (@main Ref.py_keep Ref.sklearn fs_corpus) = Ok tt /\
  length (fits (trace (@main Ref.py_keep Ref.sklearn fs_corpus))) = 20%nat /\
  exists (folds1 folds2 : list (list nat * list nat))
         (fits1 fits2 : list event),
    length folds1 = 10%nat /\ length folds2 = 10%nat /\
    length fits1 = length folds1 /\ length fits2 = length folds2 /\
    fits (trace (@main Ref.py_keep Ref.sklearn fs_corpus)) = fits1 ++ fits2.
Proof.
  assert (outcome (@main Ref.py_keep Ref.sklearn fs_corpus) = Ok tt) as Hmain
    by by vm_compute.
  split; [exact Hmain|]. split; [by vm_compute|].
  destruct (@main_training_calls Ref.py_keep Ref.sklearn fs_corpus Hmain)
    as (dep & non & d & xc & xt & folds1 & folds2 & _ & _ & _ & _ & _
        & Hs1 & Hs2 & fits1 & fits2 & Hf1 & Hf2 & Hfits).
  exists folds1, folds2, fits1, fits2.
  split; [exact (ref_split_length _ _ _ _ _ Hs1)|].
  split; [exact (ref_split_length _ _ _ _ _ Hs2)|].
  split; [symmetry; exact (length_mapM _ _ _ Hf1)|].
  split; [symmetry; exact (length_mapM _ _ _ Hf2)|].
  exact Hfits.
Defined.
